(** * AICompaniesSeriousness: cache, retry, usage ledger and staged orchestrator

    A shallow embedding of the invocation layer of the multi-agent research
    system (src/utils/cache.py, src/utils/token_counter.py,
    src/agents/base_agent.py, src/agents/lead_agent.py,
    src/agents/company_analysis_agent.py, src/orchestrator.py) and the
    properties its design document states about it.

    Python values are dynamically typed; the values that travel through the
    cache and the decoded responses are modelled by [json].  Effects (cache
    files, clock, the text-generation service, sleeping) are modelled by
    explicit state passing over [world]; what the outside decides (clock
    readings, service answers, disk faults, the JSON codec, the digest) is an
    oracle collected in [Env]. *)

From Stdlib Require Import ZArith String Ascii List Lia Bool.
From Stdlib Require OrderedTypeEx.
From stdpp Require Import base option list gmap strings sorting pretty.

Set Warnings "-register-all".

Local Open Scope string_scope.
Local Open Scope Z_scope.

(** ** Python values *)

(** The JSON-shaped fragment of Python values: None, bool, int, str, list and
    dict with str keys.  A dict is an association list in insertion order
    (Python dicts iterate in insertion order); floats do not occur in the
    modelled paths. *)
Inductive json : Type :=
  | JNull
  | JBool (b : bool)
  | JInt (n : Z)
  | JStr (s : string)
  | JList (items : list json)
  | JDict (entries : list (string * json)).

(** Exceptions the modelled code can see. *)
Inductive exn : Type :=
  | RateLimitError
  | APIError (msg : string)
  | OSError
  | TypeError
  | KeyError (key : string)
  | ValueError
  | AttributeError
  | RuntimeError (msg : string).

Inductive result (A : Type) : Type :=
  | Ok (a : A)
  | Raise (e : exn).
Arguments Ok {A} a.
Arguments Raise {A} e.

(** Truth value of a Python object, as tested by [if x:]. *)
Definition truthy (j : json) : bool :=
  match j with
  | JNull => false
  | JBool b => b
  | JInt n => negb (n =? 0)
  | JStr s => negb (String.eqb s "")
  | JList l => match l with [] => false | _ => true end
  | JDict d => match d with [] => false | _ => true end
  end.

(** [d[key]] on a dict given as an association list. *)
Fixpoint assoc {A : Type} (key : string) (d : list (string * A)) : option A :=
  match d with
  | [] => None
  | (k, v) :: d' => if String.eqb k key then Some v else assoc key d'
  end.

(** [obj[key]] with a str key: KeyError on a dict without the key, TypeError
    on anything that is not a dict. *)
Definition getitem (obj : json) (key : string) : result json :=
  match obj with
  | JDict d => match assoc key d with
               | Some v => Ok v
               | None => Raise (KeyError key)
               end
  | _ => Raise TypeError
  end.

(** [obj.get(key, default)]: only dicts have the method. *)
Definition dict_get (obj : json) (key : string) (default : json) : result json :=
  match obj with
  | JDict d => Ok (match assoc key d with Some v => v | None => default end)
  | _ => Raise AttributeError
  end.

(** ** State and exceptions *)

(** A computation over a state [St] that returns or raises; the state
    survives a raise, as side effects do in Python. *)
Definition M (St A : Type) : Type := St -> result A * St.

Definition ret {St A} (a : A) : M St A := fun s => (Ok a, s).
Definition raise {St A} (e : exn) : M St A := fun s => (Raise e, s).
Definition bind {St A B} (c : M St A) (k : A -> M St B) : M St B :=
  fun s => match c s with
           | (Ok a, s') => k a s'
           | (Raise e, s') => (Raise e, s')
           end.
(** [try c except e: h e] *)
Definition catch {St A} (c : M St A) (h : exn -> M St A) : M St A :=
  fun s => match c s with
           | (Ok a, s') => (Ok a, s')
           | (Raise e, s') => h e s'
           end.
Definition lift_result {St A} (r : result A) : M St A := fun s => (r, s).

Notation "'let*' x := c 'in' k" := (bind c (fun x => k))
  (at level 10, x name, c at level 100, k at level 200).
Notation "'let*' ' pat := c 'in' k" :=
  (bind c (fun x => match x with pat => k end))
  (at level 10, pat pattern, c at level 100, k at level 200).
Notation "c ';;' k" := (bind c (fun _ => k))
  (at level 100, k at level 200, right associativity).

(** ** Strings *)

Definition newline : string := String (ascii_of_nat 10) EmptyString.

(** [sep.join(parts)] *)
Fixpoint str_join (sep : string) (parts : list string) : string :=
  match parts with
  | [] => ""
  | [p] => p
  | p :: rest => p ++ sep ++ str_join sep rest
  end.

(** [text.find(c)] for a one-character needle: the first index, or -1. *)
Fixpoint str_find (c : ascii) (text : string) : Z :=
  match text with
  | EmptyString => -1
  | String a rest =>
      if Ascii.eqb a c then 0
      else let i := str_find c rest in if i =? -1 then -1 else i + 1
  end.

(** [text.rfind(c)]: the last index, or -1. *)
Fixpoint str_rfind (c : ascii) (text : string) : Z :=
  match text with
  | EmptyString => -1
  | String a rest =>
      let i := str_rfind c rest in
      if i =? -1 then (if Ascii.eqb a c then 0 else -1) else i + 1
  end.

(** [text[start:stop]] for [0 <= start], [0 <= stop]. *)
Definition str_slice (text : string) (start stop : Z) : string :=
  substring (Z.to_nat start) (Z.to_nat (stop - start)) text.

(** [text[:n]] *)
Definition str_take (n : Z) (text : string) : string :=
  substring 0 (Z.to_nat n) text.

(** ** Settings (src/config/settings.py) *)

Record Settings : Type := {
  DEFAULT_MODEL : string;
  LEAD_AGENT_MODEL : string;
  SUB_AGENT_MODEL : string;
  SYNTHESIS_AGENT_MODEL : string;
  MAX_TOKENS_LEAD_AGENT : Z;
  MAX_TOKENS_SUB_AGENT : Z;
  MAX_TOKENS_SYNTHESIS : Z;
  ENABLE_CACHING : bool;
  PARALLEL_EXECUTION : bool;
  VERBOSE : bool;
  MAX_RETRIES : Z;
  RETRY_DELAY : Z
}.

Definition get_model_for_agent (cfg : Settings) (agent_type : string) : string :=
  if String.eqb agent_type "lead" then LEAD_AGENT_MODEL cfg
  else if String.eqb agent_type "sub" then SUB_AGENT_MODEL cfg
  else if String.eqb agent_type "synthesis" then SYNTHESIS_AGENT_MODEL cfg
  else DEFAULT_MODEL cfg.

Definition get_max_tokens_for_agent (cfg : Settings) (agent_type : string) : Z :=
  if String.eqb agent_type "lead" then MAX_TOKENS_LEAD_AGENT cfg
  else if String.eqb agent_type "sub" then MAX_TOKENS_SUB_AGENT cfg
  else if String.eqb agent_type "synthesis" then MAX_TOKENS_SYNTHESIS cfg
  else 4000.

(** The settings of a process started with no environment overrides. *)
Definition default_settings : Settings := {|
  DEFAULT_MODEL := "claude-sonnet-4-5-20250929";
  LEAD_AGENT_MODEL := "claude-haiku-4-5-20250929";
  SUB_AGENT_MODEL := "claude-sonnet-4-5-20250929";
  SYNTHESIS_AGENT_MODEL := "claude-sonnet-4-5-20250929";
  MAX_TOKENS_LEAD_AGENT := 2000;
  MAX_TOKENS_SUB_AGENT := 3000;
  MAX_TOKENS_SYNTHESIS := 6000;
  ENABLE_CACHING := true;
  PARALLEL_EXECUTION := false;
  VERBOSE := true;
  MAX_RETRIES := 3;
  RETRY_DELAY := 2
|}.

(** ** The outside world *)

(** One request to the text-generation service, as [messages.create]
    receives it: a single user message. *)
Record request : Type := {
  req_model : string;
  req_max_tokens : json;
  req_content : string;
  req_extra : list (string * json)
}.

(** What one call to the service does: a message whose first content block
    is [text] with its usage counts, or an exception. *)
Inductive api_outcome : Type :=
  | ApiMessage (text : string) (input_tokens output_tokens : Z)
  | ApiRaise (e : exn).

(** What opening and writing a cache file does: it works, [open] fails and
    the file is untouched, or the write fails after [open] truncated it. *)
Inductive write_outcome : Type :=
  | WriteOk
  | OpenFails
  | DumpFails.

(** Everything decided outside the program.  The clock is indexed by the
    number of readings taken so far, the service by the number of calls made
    so far, the disk by the number of writes attempted so far.  Times are in
    microseconds, the resolution of [datetime]. *)
Record Env : Type := {
  clock : nat -> Z;
  api : nat -> request -> api_outcome;
  disk : nat -> write_outcome;
  (** [json.loads]: [None] stands for JSONDecodeError *)
  json_loads : string -> option json;
  (** the serializer behind [json.dumps], applied to a document whose dicts
      are already in the order they are written *)
  json_dumps : json -> string;
  (** [hashlib.md5(s.encode()).hexdigest()] *)
  md5_hexdigest : string -> string;
  (** [str(x)] as an f-string formats a value that is not a str *)
  py_repr : json -> string
}.

(** An f-string placeholder [{x}]: a str is inserted as it is. *)
Definition format (E : Env) (x : json) : string :=
  match x with
  | JStr s => s
  | _ => py_repr E x
  end.

(** The timestamp field of a parsed cache document: the key is missing
    (KeyError), is a string [fromisoformat] rejects (ValueError), or is the
    time it was written. *)
Inductive stamp : Type :=
  | StampMissing
  | StampInvalid
  | StampAt (t : Z).

(** The content of one file [<cache_key>.json], as [Cache] reads it: not
    JSON at all (JSONDecodeError), JSON that is not an object or whose
    timestamp is not a string (TypeError, which [Cache] does not catch), or
    an object with its timestamp and, when the key is there, its value.
    What [set] writes is read back as it was written. *)
Inductive file : Type :=
  | NotJson
  | NotRecord
  | Entry (timestamp : stamp) (value : option json).

(** What the process did to the service and to its own timing, in order. *)
Inductive event : Type :=
  | Called (req : request)
  | Slept (seconds : Z).

(** The cache directory (file name without its extension to content), the
    number of clock readings, service calls and file writes so far, and the
    log of service calls and sleeps so far, oldest first. *)
Record world : Type := {
  files : gmap string file;
  clock_reads : nat;
  api_calls : nat;
  disk_writes : nat;
  events : list event
}.

Definition with_files (f : gmap string file) (w : world) : world :=
  {| files := f; clock_reads := clock_reads w; api_calls := api_calls w;
     disk_writes := disk_writes w; events := events w |}.

Section Effects.
Context (E : Env).

(** [datetime.now()] *)
Definition datetime_now : M world Z := fun w =>
  (Ok (clock E (clock_reads w)),
   {| files := files w; clock_reads := S (clock_reads w);
      api_calls := api_calls w; disk_writes := disk_writes w;
      events := events w |}).

(** [time.sleep(seconds)]: a negative length is a ValueError. *)
Definition sleep (seconds : Z) : M world unit := fun w =>
  if seconds <? 0 then (Raise ValueError, w)
  else (Ok tt,
        {| files := files w; clock_reads := clock_reads w;
           api_calls := api_calls w; disk_writes := disk_writes w;
           events := events w ++ [Slept seconds] |}).

(** [client.messages.create(...)] followed by reading the text and the
    usage off the message. *)
Definition messages_create (req : request) : M world (string * Z * Z) := fun w =>
  let w' := {| files := files w; clock_reads := clock_reads w;
               api_calls := S (api_calls w); disk_writes := disk_writes w;
               events := events w ++ [Called req] |} in
  match api E (api_calls w) req with
  | ApiMessage text i o => (Ok (text, i, o), w')
  | ApiRaise e => (Raise e, w')
  end.

(** [cache_path.exists()] and the content behind it. *)
Definition read_file (cache_key : string) : M world (option file) := fun w =>
  (Ok (files w !! cache_key), w).

(** [cache_path.unlink()] *)
Definition unlink (cache_key : string) : M world unit := fun w =>
  (Ok tt, with_files (delete cache_key (files w)) w).

(** [with open(cache_path, 'w') as f: json.dump(cache_data, f, indent=2)] *)
Definition write_file (cache_key : string) (content : file) : M world unit := fun w =>
  let counted f :=
    {| files := f; clock_reads := clock_reads w; api_calls := api_calls w;
       disk_writes := S (disk_writes w); events := events w |} in
  match disk E (disk_writes w) with
  | WriteOk => (Ok tt, counted (<[cache_key := content]> (files w)))
  | OpenFails => (Raise OSError, counted (files w))
  | DumpFails => (Raise OSError, counted (<[cache_key := NotJson]> (files w)))
  end.
End Effects.

(** ** Usage ledger (src/utils/token_counter.py) *)

Record TokenUsage : Type := {
  input_tokens : Z;
  output_tokens : Z;
  total_tokens : Z
}.

Module TokenUsage.
(** [TokenUsage()]: every counter defaults to 0. *)
Definition new : TokenUsage :=
  {| input_tokens := 0; output_tokens := 0; total_tokens := 0 |}.

Definition add (self : TokenUsage) (input output : Z) : TokenUsage :=
  {| input_tokens := input_tokens self + input;
     output_tokens := output_tokens self + output;
     total_tokens := total_tokens self + (input + output) |}.
End TokenUsage.

Record TokenCounter : Type := {
  usage_by_agent : gmap string TokenUsage;
  total_usage : TokenUsage
}.

Module TokenCounter.
(** [TokenCounter()]: an empty dict and a fresh [TokenUsage]. *)
Definition new : TokenCounter :=
  {| usage_by_agent := ∅; total_usage := TokenUsage.new |}.

(** [track]: the record of [agent_name] is created on first use, then
    both it and the total are incremented in place. *)
Definition track (self : TokenCounter) (agent_name model : string)
    (input output : Z) : TokenCounter :=
  let by_agent :=
    match usage_by_agent self !! agent_name with
    | Some _ => usage_by_agent self
    | None => <[agent_name := TokenUsage.new]> (usage_by_agent self)
    end in
  {| usage_by_agent :=
       alter (fun u => TokenUsage.add u input output) agent_name by_agent;
     total_usage := TokenUsage.add (total_usage self) input output |}.
End TokenCounter.

(** ** Cache (src/utils/cache.py) *)

(** A cache instance: its directory is the [files] of the world, its
    time-to-live is [timedelta(hours=ttl_hours)]. *)
Record Cache : Type := { ttl_hours : Z }.

Module Cache.
(** [Cache(cache_dir)] with the default [ttl_hours=24]. *)
Definition new : Cache := {| ttl_hours := 24 |}.

(** [self.ttl], in microseconds. *)
Definition ttl (self : Cache) : Z := ttl_hours self * 3600000000.

(** Insertion of one item into a list of dict items ordered by key. *)
Fixpoint insert_item (x : string * json) (l : list (string * json))
    : list (string * json) :=
  match l with
  | [] => [x]
  | y :: l' => if String.leb (fst x) (fst y) then x :: y :: l'
               else y :: insert_item x l'
  end.

(** [sorted(d.items())], the order in which [json.dumps(sort_keys=True)]
    writes a dict; the keys of a dict are distinct, so the order is by
    key alone. *)
Definition sort_items (l : list (string * json)) : list (string * json) :=
  foldr insert_item [] l.

(** The document [json.dumps(.., sort_keys=True)] serializes: every dict,
    at every depth, with its items in key order. *)
Fixpoint sort_keys (j : json) : json :=
  match j with
  | JList l => JList (map sort_keys l)
  | JDict d => JDict (sort_items (map (fun kv => (fst kv, sort_keys (snd kv))) d))
  | _ => j
  end.

Section WithEnv.
Context (E : Env).

(** [_get_cache_key]: positional and keyword key parts to digest. *)
Definition _get_cache_key (args : list json) (kwargs : list (string * json))
    : string :=
  let key_data := JDict [("args", JList args); ("kwargs", JDict kwargs)] in
  let key_string := json_dumps E (sort_keys key_data) in
  md5_hexdigest E key_string.

(** [get]; Python None is [JNull]. *)
Definition get (self : Cache) (args : list json)
    (kwargs : list (string * json)) : M world json :=
  let cache_key := _get_cache_key args kwargs in
  let* found := read_file cache_key in
  match found with
  | None => ret JNull
  | Some NotJson => ret JNull
  | Some NotRecord => raise TypeError
  | Some (Entry StampMissing _) => ret JNull
  | Some (Entry StampInvalid _) => ret JNull
  | Some (Entry (StampAt cached_time) value) =>
      let* now := datetime_now E in
      if ttl self <? now - cached_time then
        unlink cache_key ;; ret JNull
      else
        match value with
        | Some v => ret v
        | None => ret JNull
        end
  end.

(** [set] *)
Definition set (self : Cache) (value : json) (args : list json)
    (kwargs : list (string * json)) : M world unit :=
  let cache_key := _get_cache_key args kwargs in
  let* now := datetime_now E in
  write_file E cache_key (Entry (StampAt now) (Some value)).
End WithEnv.
End Cache.

(** ** Base agent (src/agents/base_agent.py) *)

Record BaseAgent : Type := {
  name : string;
  role : string;
  agent_type : string;
  cache : option Cache;
  model : string;
  max_tokens : Z
}.

Module BaseAgent.
Section WithEnv.
Context (E : Env) (cfg : Settings).

(** [__init__]: model and token limit come from the settings. *)
Definition new (name role agent_type : string) (cache : option Cache)
    : BaseAgent :=
  {| name := name; role := role; agent_type := agent_type; cache := cache;
     model := get_model_for_agent cfg agent_type;
     max_tokens := get_max_tokens_for_agent cfg agent_type |}.

Definition _build_prompt (self : BaseAgent) (prompt context : string)
    : string :=
  let parts := [role self] in
  let parts :=
    if negb (String.eqb context "")
    then app parts [newline ++ "Context:" ++ newline ++ context]
    else parts in
  let parts := app parts [newline ++ "Task:" ++ newline ++ prompt] in
  str_join (newline ++ newline) parts.

(** The request one attempt sends. *)
Definition api_request (self : BaseAgent) (prompt : string)
    (kwargs : list (string * json)) : request :=
  {| req_model := model self;
     req_max_tokens :=
       match assoc "max_tokens" kwargs with
       | Some v => v
       | None => JInt (max_tokens self)
       end;
     req_content := prompt;
     req_extra :=
       filter (fun kv => negb (String.eqb (fst kv) "max_tokens")) kwargs |}.

(** The body of [for attempt in range(max_retries)], from [attempt] on;
    [remaining] is the number of iterations left.  The code after the
    loop is what runs when no iteration is left. *)
Fixpoint retry_loop (self : BaseAgent) (req : request) (max_retries : Z)
    (remaining : nat) (attempt : Z) (last_exception : option exn)
    : M world (string * Z * Z) :=
  match remaining with
  | O =>
      match last_exception with
      | Some e => raise e
      | None => raise (RuntimeError (name self ++ ": Failed to get API response"))
      end
  | S remaining' =>
      fun w =>
        match messages_create E req w with
        | (Ok response, w') => (Ok response, w')
        | (Raise RateLimitError, w') =>
            if attempt <? max_retries - 1 then
              let wait_time := RETRY_DELAY cfg * (attempt + 1) in
              (sleep wait_time ;;
               retry_loop self req max_retries remaining' (attempt + 1)
                 (Some RateLimitError)) w'
            else (Raise RateLimitError, w')
        | (Raise e, w') => (Raise e, w')
        end
  end.

(** [max_retries or Settings.MAX_RETRIES]: None and 0 are falsy. *)
Definition resolve_max_retries (max_retries : option Z) : Z :=
  match max_retries with
  | Some n => if n =? 0 then MAX_RETRIES cfg else n
  | None => MAX_RETRIES cfg
  end.

(** [_call_api_with_retry(prompt, max_retries=None, **kwargs)] *)
Definition _call_api_with_retry (self : BaseAgent) (prompt : string)
    (max_retries : option Z) (kwargs : list (string * json))
    : M world (string * Z * Z) :=
  let max_retries := resolve_max_retries max_retries in
  retry_loop self (api_request self prompt kwargs) max_retries
    (Z.to_nat max_retries) 0 None.

(** The key parts of an invocation, in the order [invoke] passes them. *)
Definition key_parts (self : BaseAgent) (prompt context : string)
    : list (string * json) :=
  [("agent_name", JStr (name self)); ("prompt", JStr prompt);
   ("context", JStr context)].

(** [use_cache and self.cache and Settings.ENABLE_CACHING] *)
Definition caching (self : BaseAgent) (use_cache : bool) : option Cache :=
  if use_cache then
    match cache self with
    | Some c => if ENABLE_CACHING cfg then Some c else None
    | None => None
    end
  else None.

(** The part of [invoke] after the cache check: build the full prompt,
    call the service, store the answer when the cache is in use, return. *)
Definition call_and_store (self : BaseAgent) (prompt context : string)
    (use_cache : bool) (max_retries : option Z)
    (kwargs : list (string * json)) : M world (json * Z * Z) :=
  let full_prompt := _build_prompt self prompt context in
  let* '(response_text, input_tokens, output_tokens) :=
    _call_api_with_retry self full_prompt max_retries kwargs in
  match caching self use_cache with
  | Some c =>
      Cache.set E c
        (JDict [("text", JStr response_text);
                ("input_tokens", JInt input_tokens);
                ("output_tokens", JInt output_tokens)])
        [] (key_parts self prompt context) ;;
      ret (JStr response_text, input_tokens, output_tokens)
  | None => ret (JStr response_text, input_tokens, output_tokens)
  end.

(** [invoke(prompt, context, use_cache, **kwargs)]; [max_retries] is the
    one keyword [_call_api_with_retry] takes by name.  The text of a
    cached response is whatever the cache holds under [text]. *)
Definition invoke (self : BaseAgent) (prompt context : string)
    (use_cache : bool) (max_retries : option Z)
    (kwargs : list (string * json)) : M world (json * Z * Z) :=
  match caching self use_cache with
  | Some c =>
      let* cached_response := Cache.get E c [] (key_parts self prompt context) in
      if truthy cached_response then
        let* text := lift_result (getitem cached_response "text") in
        ret (text, 0, 0)
      else call_and_store self prompt context use_cache max_retries kwargs
  | None => call_and_store self prompt context use_cache max_retries kwargs
  end.

(** [extract_json(text)]: the whole text, then the span from the first
    opening brace to the last closing one, then the same with brackets.
    [json.loads] of something that is not a str raises TypeError, which
    is not the JSONDecodeError the function catches. *)
Definition extract_json (self : BaseAgent) (text : json) : result json :=
  match text with
  | JStr text =>
      match json_loads E text with
      | Some v => Ok v
      | None =>
          let try_span (opening closing : ascii) : option json :=
            let start := str_find opening text in
            let stop := str_rfind closing text + 1 in
            if negb (start =? -1) && (start <? stop)
            then json_loads E (str_slice text start stop)
            else None in
          match try_span "{"%char "}"%char with
          | Some v => Ok v
          | None =>
              match try_span "["%char "]"%char with
              | Some v => Ok v
              | None => Ok JNull
              end
          end
      end
  | _ => Raise TypeError
  end.
End WithEnv.
End BaseAgent.

(** ** Prompt templates

    The role descriptions and prompt texts are fixed templates filled with
    the company names; no property below depends on their wording, so they
    are kept as the functions of what is interpolated into them. *)
Record Templates : Type := {
  (** the role of the lead agent *)
  lead_role : string;
  (** the locator prompt, given the comma-separated company names *)
  locate_prompt : string -> string;
  (** the role of a company analyst, given the formatted company *)
  analyst_role : string -> string;
  (** the prompt over document content, given the formatted company and the
      first 30000 characters of the content *)
  content_prompt : string -> string -> string;
  (** the knowledge-based prompt, given the formatted company *)
  knowledge_prompt : string -> string
}.

(** [len(x)]: None, bool and int have no length. *)
Definition len (x : json) : result Z :=
  match x with
  | JStr s => Ok (Z.of_nat (String.length s))
  | JList l => Ok (Z.of_nat (length l))
  | JDict d => Ok (Z.of_nat (length d))
  | _ => Raise TypeError
  end.

(** ** Lead agent (src/agents/lead_agent.py) *)

Module LeadAgent.
Section WithEnv.
Context (E : Env) (cfg : Settings) (T : Templates).

Definition new (cache : option Cache) : BaseAgent :=
  BaseAgent.new cfg "LeadDocumentLocator" (lead_role T) "lead" cache.

(** The descriptor substituted for one company when the response could
    not be decoded. *)
Definition default_location (company : string) : json :=
  JDict [("company", JStr company);
         ("ticker", JStr "N/A");
         ("fiscal_year_end", JStr "2024");
         ("tenk_url",
          JStr ("https://www.sec.gov/cgi-bin/browse-edgar?company=" ++ company));
         ("investor_relations_url", JStr "N/A");
         ("earnings_transcript_url", JStr "N/A")].

(** [locate_documents(companies)]; the last log line takes the length of
    whatever was decoded. *)
Definition locate_documents (self : BaseAgent) (companies : list string)
    : M world (json * Z * Z) :=
  let prompt := locate_prompt T (str_join ", " companies) in
  let* '(response_text, input_tokens, output_tokens) :=
    BaseAgent.invoke E cfg self prompt "" true None [] in
  let* document_locations :=
    lift_result (BaseAgent.extract_json E self response_text) in
  let document_locations :=
    match document_locations with
    | JNull => JList (map default_location companies)
    | _ => document_locations
    end in
  lift_result (len document_locations) ;;
  ret (document_locations, input_tokens, output_tokens).
End WithEnv.
End LeadAgent.

(** ** Company analysis agent (src/agents/company_analysis_agent.py) *)

Record CompanyAnalysis : Type := {
  company : json;
  gen_ai_mentions : json;
  ml_mentions : json;
  capex_ai : json;
  cfo_quote : json;
  key_insights : json;
  documents_analyzed : list json
}.

Record CompanyAnalysisAgent : Type := {
  base : BaseAgent;
  agent_company : json
}.

Module CompanyAnalysisAgent.
Section WithEnv.
Context (E : Env) (cfg : Settings) (T : Templates).

Definition new (company : json) (cache : option Cache)
    : CompanyAnalysisAgent :=
  {| base := BaseAgent.new cfg (format E company ++ "Analyst")
               (analyst_role T (format E company)) "sub" cache;
     agent_company := company |}.

(** [url and url != "N/A"] *)
Definition usable_url (url : json) : bool :=
  truthy url &&
  match url with
  | JStr s => negb (String.eqb s "N/A")
  | _ => true
  end.

(** The context lines built from the descriptor. *)
Definition build_context (self : CompanyAnalysisAgent)
    (document_urls : list (string * json)) : string :=
  let context_parts := ["Analyzing: " ++ format E (agent_company self)] in
  let context_parts :=
    match document_urls with
    | [] => context_parts
    | _ =>
        app (app context_parts ["Document sources:"])
          (map (fun kv => "  - " ++ fst kv ++ ": " ++ format E (snd kv))
             (filter (fun kv => usable_url (snd kv)) document_urls))
    end in
  str_join newline context_parts.

Definition build_prompt (self : CompanyAnalysisAgent)
    (document_content : option string) : string :=
  match document_content with
  | Some content =>
      if String.eqb content "" then knowledge_prompt T (format E (agent_company self))
      else content_prompt T (format E (agent_company self)) (str_take 30000 content)
  | None => knowledge_prompt T (format E (agent_company self))
  end.

(** The data substituted when the response could not be decoded. *)
Definition error_data : json :=
  JDict [("gen_ai_mentions", JInt 0);
         ("ml_mentions", JInt 0);
         ("capex_ai", JStr "Error in analysis");
         ("cfo_quote", JStr "Error in analysis");
         ("key_insights", JStr "Analysis failed")].

(** [analyze_documents(document_urls, document_content)] *)
Definition analyze_documents (self : CompanyAnalysisAgent)
    (document_urls : list (string * json)) (document_content : option string)
    : M world (CompanyAnalysis * Z * Z) :=
  let context := build_context self document_urls in
  let prompt := build_prompt self document_content in
  let* '(response_text, input_tokens, output_tokens) :=
    BaseAgent.invoke E cfg (base self) prompt context true None [] in
  let* data := lift_result (BaseAgent.extract_json E (base self) response_text) in
  let data := match data with JNull => error_data | _ => data end in
  let* gen_ai := lift_result (dict_get data "gen_ai_mentions" (JInt 0)) in
  let* ml := lift_result (dict_get data "ml_mentions" (JInt 0)) in
  let* capex := lift_result (dict_get data "capex_ai" (JStr "Not disclosed")) in
  let* quote := lift_result (dict_get data "cfo_quote" (JStr "No quote found")) in
  let* insights := lift_result (dict_get data "key_insights" (JStr "")) in
  let* tenk := lift_result (dict_get (JDict document_urls) "tenk_url" (JStr "")) in
  let* transcript :=
    lift_result (dict_get (JDict document_urls) "earnings_transcript_url" (JStr "")) in
  let analysis :=
    {| company := agent_company self;
       gen_ai_mentions := gen_ai;
       ml_mentions := ml;
       capex_ai := capex;
       cfo_quote := quote;
       key_insights := insights;
       documents_analyzed := [tenk; transcript] |} in
  ret (analysis, input_tokens, output_tokens).
End WithEnv.
End CompanyAnalysisAgent.

(** ** Orchestrator (src/orchestrator.py) *)

Record Orchestrator : Type := {
  orch_cache : option Cache;
  token_counter : TokenCounter;
  models_used : gmap string string
}.

Module MultiAgentOrchestrator.
(** The state of a run: the orchestrator object and the world. *)
Definition run_state : Type := (Orchestrator * world)%type.

Definition in_world {A} (c : M world A) : M run_state A := fun s =>
  match c (snd s) with
  | (r, w') => (r, (fst s, w'))
  end.

Definition self_ : M run_state Orchestrator := fun s => (Ok (fst s), s).

(** [self.models_used[agent_name] = model] followed by
    [self.token_counter.track(agent_name, model, input, output)] *)
Definition record_usage (agent_name model : string) (input output : Z)
    : M run_state unit := fun s =>
  (Ok tt,
   ({| orch_cache := orch_cache (fst s);
       token_counter :=
         TokenCounter.track (token_counter (fst s)) agent_name model input output;
       models_used := <[agent_name := model]> (models_used (fst s)) |},
    snd s)).

(** The preview line printed for an analysis: [len] is taken of the CapEx
    field and, above 60, its first 60 items are concatenated with a str.
    (Slicing a dict is an error whose class varies with the interpreter;
    it is reported as TypeError here.) *)
Definition capex_preview (capex : json) : result unit :=
  match capex with
  | JStr _ => Ok tt
  | JList l => if 60 <? Z.of_nat (length l) then Raise TypeError else Ok tt
  | JDict d => if 60 <? Z.of_nat (length d) then Raise TypeError else Ok tt
  | _ => Raise TypeError
  end.

Section WithEnv.
Context (E : Env) (cfg : Settings) (T : Templates).

(** [__init__], once the settings are validated. *)
Definition new : Orchestrator :=
  {| orch_cache := if ENABLE_CACHING cfg then Some Cache.new else None;
     token_counter := TokenCounter.new;
     models_used := ∅ |}.

(** [_phase_1_locate_documents(companies)] *)
Definition _phase_1_locate_documents (companies : list string)
    : M run_state (json * Z * Z) :=
  let* self := self_ in
  let lead_agent := LeadAgent.new cfg T (orch_cache self) in
  let* '(document_locations, input_tokens, output_tokens) :=
    in_world (LeadAgent.locate_documents E cfg T lead_agent companies) in
  (if VERBOSE cfg then lift_result (len document_locations) ;; ret tt
   else ret tt) ;;
  ret (document_locations, input_tokens, output_tokens).

(** One iteration of the loop of phase 2.  Only a dict passes the
    subscript, so the descriptor handed to the worker is its items. *)
Definition analyze_one (doc_info : json) : M run_state CompanyAnalysis :=
  let* company := lift_result (getitem doc_info "company") in
  let* self := self_ in
  let agent := CompanyAnalysisAgent.new E cfg T company (orch_cache self) in
  let document_urls := match doc_info with JDict d => d | _ => [] end in
  let* '(analysis, input_tokens, output_tokens) :=
    in_world (CompanyAnalysisAgent.analyze_documents E cfg T agent
                document_urls None) in
  let agent_name := format E company ++ "Analyst" in
  record_usage agent_name (SUB_AGENT_MODEL cfg) input_tokens output_tokens ;;
  (if VERBOSE cfg then lift_result (capex_preview (capex_ai analysis))
   else ret tt) ;;
  ret analysis.

(** The loop of phase 2 over the descriptors still to do; [analyses] is
    the list built so far.  The list is local to the phase: when an
    iteration raises, it is lost with it. *)
Fixpoint analyze_each (document_locations : list json)
    (analyses : list CompanyAnalysis) : M run_state (list CompanyAnalysis) :=
  match document_locations with
  | [] => ret analyses
  | doc_info :: rest =>
      let* analysis := analyze_one doc_info in
      analyze_each rest (app analyses [analysis])
  end.

(** [_phase_2_analyze_companies(document_locations)] *)
Definition _phase_2_analyze_companies (document_locations : list json)
    : M run_state (list CompanyAnalysis) :=
  analyze_each document_locations [].
End WithEnv.
End MultiAgentOrchestrator.

(** ** A concrete outside world

    An environment to run the model in: a readable serializer, the identity
    as digest, a decoder that knows the empty object only, a disk that works
    and a service and a clock given by the caller. *)
Module Sample.
Fixpoint dumps (j : json) : string :=
  match j with
  | JNull => "null"
  | JBool b => if b then "true" else "false"
  | JInt n => pretty n
  | JStr s => "'" ++ s ++ "'"
  | JList l => "[" ++ str_join "," (map dumps l) ++ "]"
  | JDict d =>
      "{" ++ str_join "," (map (fun kv => fst kv ++ ":" ++ dumps (snd kv)) d)
          ++ "}"
  end.

Definition loads (text : string) : option json :=
  if String.eqb text "{}" then Some (JDict []) else None.

Definition env (clock : nat -> Z) (api : nat -> request -> api_outcome)
    (disk : nat -> write_outcome) : Env :=
  {| clock := clock; api := api; disk := disk;
     json_loads := loads; json_dumps := dumps;
     md5_hexdigest := fun s => s;
     py_repr := dumps |}.

Definition templates : Templates :=
  {| lead_role := "You are a lead financial research agent.";
     locate_prompt := fun names => "Locate the filings of: " ++ names;
     analyst_role := fun c => "You are an expert financial analyst of " ++ c;
     content_prompt := fun c content => "Analyze for " ++ c ++ ": " ++ content;
     knowledge_prompt := fun c => "From your knowledge of " ++ c |}.

(** A process just started: an empty cache directory, nothing done yet. *)
Definition fresh : world :=
  {| files := ∅; clock_reads := 0; api_calls := 0; disk_writes := 0;
     events := [] |}.

(** A clock that stands still. *)
Definition frozen (n : nat) : Z := 1000.

(** A disk on which every write works. *)
Definition sound_disk (n : nat) : write_outcome := WriteOk.
End Sample.

(** ** Vocabulary of the statements *)

Section Vocabulary.
Context (E : Env) (cfg : Settings).

(** Items compared by key, as [String.leb] does. *)
Definition key_le (a b : string * json) : Prop :=
  String.leb (fst a) (fst b) = true.

(** The world after one more reading of the clock. *)
Definition after_clock_read (w : world) : world :=
  {| files := files w; clock_reads := S (clock_reads w);
     api_calls := api_calls w; disk_writes := disk_writes w;
     events := events w |}.

(** The world after [calls] more calls to the service whose log is [log],
    everything else untouched. *)
Definition after_attempts (w : world) (calls : nat) (log : list event) : world :=
  {| files := files w; clock_reads := clock_reads w;
     api_calls := api_calls w + calls; disk_writes := disk_writes w;
     events := events w ++ log |}.

(** The log of a loop that fails on the rate limit in every one of its
    [S more] iterations from [attempt] on (attempts counted from 0, as the
    loop does): a call, then, unless it was the last one, a sleep of the
    base delay times the number of the attempt counted from 1. *)
Fixpoint exhausted_log (req : request) (attempt : Z) (more : nat) : list event :=
  match more with
  | O => [Called req]
  | S more' =>
      Called req :: Slept (RETRY_DELAY cfg * (attempt + 1))
        :: exhausted_log req (attempt + 1) more'
  end.

(** The analysis returned for a company whose response was not decoded. *)
Definition error_placeholder (company : json)
    (document_urls : list (string * json)) : CompanyAnalysis :=
  {| company := company;
     gen_ai_mentions := JInt 0;
     ml_mentions := JInt 0;
     capex_ai := JStr "Error in analysis";
     cfo_quote := JStr "Error in analysis";
     key_insights := JStr "Analysis failed";
     documents_analyzed :=
       [match assoc "tenk_url" document_urls with
        | Some v => v
        | None => JStr ""
        end;
        match assoc "earnings_transcript_url" document_urls with
        | Some v => v
        | None => JStr ""
        end] |}.

(** The orchestrator after the usage of one analyst has been recorded. *)
Definition with_usage (orc : Orchestrator) (company : json) (i o : Z)
    : Orchestrator :=
  {| orch_cache := orch_cache orc;
     token_counter :=
       TokenCounter.track (token_counter orc) (format E company ++ "Analyst")
         (SUB_AGENT_MODEL cfg) i o;
     models_used :=
       <[format E company ++ "Analyst" := SUB_AGENT_MODEL cfg]> (models_used orc) |}.

End Vocabulary.

(** Descriptors and services for concrete runs of the pipeline. *)
Module Run.
(** A service that fails for good on its second call and answers with an
    empty object otherwise. *)
Definition second_call_fails (n : nat) (req : request) : api_outcome :=
  if (n =? 1)%nat then ApiRaise (APIError "overloaded")
  else ApiMessage "{}" 100 50.

(** A service whose answers hold no JSON. *)
Definition prose (n : nat) (req : request) : api_outcome :=
  ApiMessage "I could not find the filings." 10 5.

Definition descriptor (company : string) : list (string * json) :=
  [("company", JStr company); ("ticker", JStr "N/A");
   ("tenk_url", JStr ("https://www.sec.gov/" ++ company))].

Definition start : MultiAgentOrchestrator.run_state :=
  (MultiAgentOrchestrator.new default_settings, Sample.fresh).
End Run.


(** ** Cache maintenance (src/utils/cache.py, [clear] and [clear_expired])

    [cache_dir.glob] yields the cache files in an order the file system
    chooses; the sweeps take that listing as it comes. *)
Module CacheSweep.
(** A listing of the directory: every cache file once, in some order. *)
Definition lists (listing : list string) (w : world) : Prop :=
  NoDup listing /\ forall k, k ∈ listing <-> is_Some (files w !! k).

(** One listing of the directory, in the order of the map. *)
Definition glob (w : world) : list string := map fst (map_to_list (files w)).

(** [cache_file.unlink()] on a listed file: a file that is gone by then is
    a FileNotFoundError. *)
Definition remove (cache_file : string) : M world unit := fun w =>
  match files w !! cache_file with
  | Some _ => (Ok tt, with_files (delete cache_file (files w)) w)
  | None => (Raise OSError, w)
  end.

(** The loop of [clear] over the files still to do. *)
Fixpoint clear_each (listing : list string) (count : Z) : M world Z :=
  match listing with
  | [] => ret count
  | cache_file :: rest => remove cache_file ;; clear_each rest (count + 1)
  end.

(** [clear()] *)
Definition clear (self : Cache) (listing : list string) : M world Z :=
  clear_each listing 0.

Section WithEnv.
Context (E : Env).

(** The body of the loop of [clear_expired]: whether the file was removed.
    A file that does not parse as a cache document is removed like an
    expired one; a TypeError is not among the exceptions caught. *)
Definition sweep_one (self : Cache) (cache_file : string) : M world bool :=
  let* found := read_file cache_file in
  match found with
  | None => raise OSError
  | Some NotJson => remove cache_file ;; ret true
  | Some NotRecord => raise TypeError
  | Some (Entry StampMissing _) => remove cache_file ;; ret true
  | Some (Entry StampInvalid _) => remove cache_file ;; ret true
  | Some (Entry (StampAt cached_time) _) =>
      let* now := datetime_now E in
      if Cache.ttl self <? now - cached_time then
        remove cache_file ;; ret true
      else ret false
  end.

(** The loop of [clear_expired] over the files still to do. *)
Fixpoint sweep_each (self : Cache) (listing : list string) (count : Z)
    : M world Z :=
  match listing with
  | [] => ret count
  | cache_file :: rest =>
      let* removed := sweep_one self cache_file in
      sweep_each self rest (if removed then count + 1 else count)
  end.

(** [clear_expired()] *)
Definition clear_expired (self : Cache) (listing : list string) : M world Z :=
  sweep_each self listing 0.
End WithEnv.
End CacheSweep.

(** ** Cache commands of the orchestrator (src/orchestrator.py) *)
Module CacheCommands.
Section WithEnv.
Context (E : Env).

(** [clear_cache()] *)
Definition clear_cache (self : Orchestrator) (listing : list string)
    : M world Z :=
  match orch_cache self with
  | Some c => CacheSweep.clear c listing
  | None => ret 0
  end.

(** [clear_expired_cache()] *)
Definition clear_expired_cache (self : Orchestrator) (listing : list string)
    : M world Z :=
  match orch_cache self with
  | Some c => CacheSweep.clear_expired E c listing
  | None => ret 0
  end.
End WithEnv.
End CacheCommands.

(** What a sweep makes of a file, judged at a given time. *)
Module Sweep.
(** A file [clear_expired] cannot read as a cache document. *)
Definition unparseable (f : file) : bool :=
  match f with
  | NotJson => true
  | Entry StampMissing _ => true
  | Entry StampInvalid _ => true
  | _ => false
  end.

(** An entry older than the time-to-live at time [now]. *)
Definition expired_at (self : Cache) (now : Z) (f : file) : bool :=
  match f with
  | Entry (StampAt t) _ => Cache.ttl self <? now - t
  | _ => false
  end.

(** An entry no older than the time-to-live at time [now]. *)
Definition live_at (self : Cache) (now : Z) (f : file) : bool :=
  match f with
  | Entry (StampAt t) _ => negb (Cache.ttl self <? now - t)
  | _ => false
  end.
End Sweep.

(** Cache directories for concrete runs of the sweeps. *)
Module Stock.
(** A live entry, an expired one, a file that is not JSON and a document
    without timestamp, seen by a clock that shows 1000. *)
Definition shelf : world :=
  {| files :=
       <["live" := Entry (StampAt 900) (Some (JStr "v"))]>
       (<["old" := Entry (StampAt (-100000000000)) (Some (JStr "u"))]>
       (<["junk" := NotJson]>
       (<["nostamp" := Entry StampMissing (Some JNull)]> ∅)));
     clock_reads := 0; api_calls := 0; disk_writes := 0; events := [] |}.

(** The same with a file that holds a JSON list. *)
Definition shelf_with_list : world :=
  with_files (<["foreign" := NotRecord]> (files shelf)) shelf.

Definition env : Env :=
  Sample.env Sample.frozen (fun _ _ => ApiRaise RateLimitError) Sample.sound_disk.
End Stock.

(** What the retry loop returns for an answer of the service that ends it. *)
Definition outcome_result (out : api_outcome) : result (string * Z * Z) :=
  match out with
  | ApiMessage text i o => Ok (text, i, o)
  | ApiRaise e => Raise e
  end.

(** The calls to the service in a log. *)
Definition calls_in (log : list event) : nat :=
  length (List.filter (fun ev => match ev with Called _ => true | Slept _ => false end) log).

(** Services and settings for concrete runs of the retry loop. *)
Module Service.
(** Rate-limited twice, then an answer. *)
Definition third_time_lucky (n : nat) (req : request) : api_outcome :=
  if (n <? 2)%nat then ApiRaise RateLimitError else ApiMessage "{}" 100 50.

(** Always rate-limited. *)
Definition busy (n : nat) (req : request) : api_outcome :=
  ApiRaise RateLimitError.

(** The default settings with other retry settings. *)
Definition retrying (max_retries retry_delay : Z) : Settings :=
  {| DEFAULT_MODEL := DEFAULT_MODEL default_settings;
     LEAD_AGENT_MODEL := LEAD_AGENT_MODEL default_settings;
     SUB_AGENT_MODEL := SUB_AGENT_MODEL default_settings;
     SYNTHESIS_AGENT_MODEL := SYNTHESIS_AGENT_MODEL default_settings;
     MAX_TOKENS_LEAD_AGENT := MAX_TOKENS_LEAD_AGENT default_settings;
     MAX_TOKENS_SUB_AGENT := MAX_TOKENS_SUB_AGENT default_settings;
     MAX_TOKENS_SYNTHESIS := MAX_TOKENS_SYNTHESIS default_settings;
     ENABLE_CACHING := ENABLE_CACHING default_settings;
     PARALLEL_EXECUTION := PARALLEL_EXECUTION default_settings;
     VERBOSE := VERBOSE default_settings;
     MAX_RETRIES := max_retries;
     RETRY_DELAY := retry_delay |}.
End Service.

(** * Properties *)

(** ** The model on concrete inputs *)

Example find_examples :
  str_find "{"%char "ab{c}d}" = 2
  /\ str_rfind "}"%char "ab{c}d}" = 6
  /\ str_find "["%char "ab{c}d}" = -1
  /\ str_rfind "]"%char "" = -1
  /\ str_slice "ab{c}d}" 2 7 = "{c}d}".
Proof. repeat split. Qed.

Example join_examples :
  str_join ", " [] = ""
  /\ str_join ", " ["Oracle"] = "Oracle"
  /\ str_join ", " ["Oracle"; "IBM"; "Cisco"] = "Oracle, IBM, Cisco".
Proof. repeat split. Qed.

Example truthy_examples :
  truthy JNull = false
  /\ truthy (JStr "") = false
  /\ truthy (JDict []) = false
  /\ truthy (JInt 0) = false
  /\ truthy (JDict [("text", JStr "")]) = true
  /\ truthy (JStr "N/A") = true.
Proof. repeat split. Qed.

Example sort_items_example :
  Cache.sort_items [("prompt", JStr "p"); ("context", JStr "c");
                    ("agent_name", JStr "a")] =
    [("agent_name", JStr "a"); ("context", JStr "c"); ("prompt", JStr "p")].
Proof. reflexivity. Qed.

Example extract_json_examples :
  let E := Sample.env Sample.frozen Run.prose Sample.sound_disk in
  let agent := LeadAgent.new default_settings Sample.templates None in
  BaseAgent.extract_json E agent (JStr "{}") = Ok (JDict [])
  /\ BaseAgent.extract_json E agent (JStr "Here you are: {} I hope it helps")
     = Ok (JDict [])
  /\ BaseAgent.extract_json E agent (JStr "no json here") = Ok JNull
  /\ BaseAgent.extract_json E agent (JStr "} before {") = Ok JNull
  /\ BaseAgent.extract_json E agent (JInt 3) = Raise TypeError.
Proof. repeat split. Qed.

Example build_prompt_example :
  let agent := BaseAgent.new default_settings "n" "ROLE" "sub" None in
  BaseAgent._build_prompt agent "P" "" =
    "ROLE" ++ newline ++ newline ++ newline ++ "Task:" ++ newline ++ "P"
  /\ BaseAgent._build_prompt agent "P" "C" =
       "ROLE" ++ newline ++ newline ++ newline ++ "Context:" ++ newline ++ "C"
       ++ newline ++ newline ++ newline ++ "Task:" ++ newline ++ "P".
Proof. split; reflexivity. Qed.

(** Two descriptors, a service that answers: two calls, two analyses in the
    order of the descriptors, usage recorded under each analyst; the same
    phase run again over the cache it left makes no call and counts no
    token. *)
Example phase_2_twice :
  let E := Sample.env Sample.frozen (fun _ _ => ApiMessage "{}" 100 50)
             Sample.sound_disk in
  let docs := [JDict (Run.descriptor "Oracle"); JDict (Run.descriptor "IBM")] in
  let first := MultiAgentOrchestrator._phase_2_analyze_companies E
                 default_settings Sample.templates docs Run.start in
  let again := MultiAgentOrchestrator._phase_2_analyze_companies E
                 default_settings Sample.templates docs
                 (MultiAgentOrchestrator.new default_settings, snd (snd first)) in
  match fst first with
  | Ok analyses => map company analyses = [JStr "Oracle"; JStr "IBM"]
  | Raise _ => False
  end
  /\ api_calls (snd (snd first)) = 2%nat
  /\ usage_by_agent (token_counter (fst (snd first))) !! "IBMAnalyst" =
       Some {| input_tokens := 100; output_tokens := 50; total_tokens := 150 |}
  /\ fst again = fst first
  /\ api_calls (snd (snd again)) = 2%nat
  /\ usage_by_agent (token_counter (fst (snd again))) !! "IBMAnalyst" =
       Some {| input_tokens := 0; output_tokens := 0; total_tokens := 0 |}.
Proof. vm_compute. repeat split. Qed.

(** ** Order of dict items under [sort_keys] *)

Section KeyOrder.
Lemma string_leb_trans (a b c : string) :
  String.leb a b = true -> String.leb b c = true -> String.leb a c = true.
Proof.
  unfold String.leb.
  destruct (String.compare a b) eqn:Hab; try discriminate; intros _;
    destruct (String.compare b c) eqn:Hbc; try discriminate; intros _.
  - apply String.compare_eq_iff in Hab, Hbc. subst.
    pose proof (proj2 (OrderedTypeEx.String_as_OT.cmp_eq c c) eq_refl) as Hcc.
    unfold OrderedTypeEx.String_as_OT.cmp in Hcc. rewrite Hcc. reflexivity.
  - apply String.compare_eq_iff in Hab. subst. rewrite Hbc. reflexivity.
  - apply String.compare_eq_iff in Hbc. subst. rewrite Hab. reflexivity.
  - apply OrderedTypeEx.String_as_OT.cmp_lt in Hab, Hbc.
    pose proof (OrderedTypeEx.String_as_OT.lt_trans _ _ _ Hab Hbc) as Hac.
    apply OrderedTypeEx.String_as_OT.cmp_lt in Hac.
    unfold OrderedTypeEx.String_as_OT.cmp in Hac. rewrite Hac. reflexivity.
Qed.

Lemma string_leb_false_flip (a b : string) :
  String.leb a b = false -> String.leb b a = true.
Proof.
  intros H. destruct (String.leb_total a b) as [H'|H']; congruence.
Qed.

#[local] Instance key_le_trans : Transitive key_le.
Proof. intros a b c. unfold key_le. apply string_leb_trans. Qed.

Lemma insert_item_perm (x : string * json) (l : list (string * json)) :
  Permutation (Cache.insert_item x l) (x :: l).
Proof.
  induction l as [|y l IH]; simpl; [reflexivity|].
  destruct (String.leb (fst x) (fst y)); [reflexivity|].
  rewrite IH. apply perm_swap.
Qed.

Lemma sort_items_perm (l : list (string * json)) :
  Permutation (Cache.sort_items l) l.
Proof.
  induction l as [|x l IH]; simpl; [reflexivity|].
  unfold Cache.sort_items in *. simpl.
  rewrite insert_item_perm. constructor. exact IH.
Qed.

Lemma insert_item_sorted (x : string * json) (l : list (string * json)) :
  Sorted key_le l -> Sorted key_le (Cache.insert_item x l).
Proof.
  induction l as [|y l IH]; simpl; intros Hs.
  - repeat constructor.
  - destruct (String.leb (fst x) (fst y)) eqn:Hxy.
    + constructor; [exact Hs|]. constructor. exact Hxy.
    + apply Sorted_inv in Hs as [Hs Hhd].
      constructor; [apply IH; exact Hs|].
      apply string_leb_false_flip in Hxy.
      destruct l as [|z l]; simpl.
      * constructor. exact Hxy.
      * destruct (String.leb (fst x) (fst z)); constructor;
          [exact Hxy | inversion Hhd; assumption].
Qed.

Lemma sort_items_sorted (l : list (string * json)) :
  Sorted key_le (Cache.sort_items l).
Proof.
  induction l as [|x l IH]; [constructor|].
  unfold Cache.sort_items in *. simpl. apply insert_item_sorted, IH.
Qed.

(** In a dict, a key has one value. *)
Lemma nodup_keys_same_item (l : list (string * json)) (a b : string * json) :
  NoDup (map fst l) -> a ∈ l -> b ∈ l -> fst a = fst b -> a = b.
Proof.
  induction l as [|y l IH]; simpl; intros Hnd Ha Hb Hk.
  - apply elem_of_nil in Ha. contradiction.
  - apply NoDup_cons in Hnd as [Hy Hnd].
    apply elem_of_cons in Ha as [->|Ha]; apply elem_of_cons in Hb as [->|Hb];
      auto.
    + exfalso. apply Hy. rewrite Hk.
      apply list_elem_of_In, in_map, list_elem_of_In, Hb.
    + exfalso. apply Hy. rewrite <- Hk.
      apply list_elem_of_In, in_map, list_elem_of_In, Ha.
Qed.

(** Dicts with the same items are written in the same order, whatever the
    order the items were inserted in. *)
Lemma sort_items_order_irrelevant (l1 l2 : list (string * json)) :
  NoDup (map fst l1) -> Permutation l1 l2 ->
  Cache.sort_items l1 = Cache.sort_items l2.
Proof.
  intros Hnd Hp.
  apply (StronglySorted_unique_strong key_le).
  - intros a b Ha Hb Hab Hba.
    rewrite sort_items_perm in Ha. rewrite sort_items_perm, <- Hp in Hb.
    apply (nodup_keys_same_item l1); auto.
    apply String.leb_antisym; assumption.
  - apply Sorted_StronglySorted; [apply _|apply sort_items_sorted].
  - apply Sorted_StronglySorted; [apply _|apply sort_items_sorted].
  - rewrite !sort_items_perm. exact Hp.
Qed.
End KeyOrder.

(** ** Usage ledger *)

Lemma track_lookup (tc : TokenCounter) (a m : string) (i o : Z) :
  usage_by_agent (TokenCounter.track tc a m i o) !! a =
    Some (TokenUsage.add (default TokenUsage.new (usage_by_agent tc !! a)) i o).
Proof.
  unfold TokenCounter.track. simpl.
  destruct (usage_by_agent tc !! a) as [u|] eqn:Hu; simpl.
  - rewrite lookup_alter_eq, Hu. reflexivity.
  - rewrite lookup_alter_eq, lookup_insert_eq. reflexivity.
Qed.

Lemma track_lookup_other (tc : TokenCounter) (a b m : string) (i o : Z) :
  a <> b ->
  usage_by_agent (TokenCounter.track tc a m i o) !! b = usage_by_agent tc !! b.
Proof.
  intros Hab. unfold TokenCounter.track. simpl.
  rewrite lookup_alter_ne by exact Hab.
  destruct (usage_by_agent tc !! a); [reflexivity|].
  apply lookup_insert_ne. exact Hab.
Qed.

(** C10. [track] creates the record of a caller on first use with every
    counter at zero and adds the reported increment to that record and to
    the global total, leaving the records of other callers alone; tracking
    (A, m, 100, 50) and then (A, m, 10, 5) for a caller A not seen before
    leaves A with input 110, output 55 and total 165. *)
Theorem track_accumulates (tc : TokenCounter) (a m : string) (i o : Z) :
  usage_by_agent (TokenCounter.track tc a m i o) !! a =
    Some (TokenUsage.add (default TokenUsage.new (usage_by_agent tc !! a)) i o)
  /\ total_usage (TokenCounter.track tc a m i o) =
       TokenUsage.add (total_usage tc) i o
  /\ (forall b, a <> b ->
        usage_by_agent (TokenCounter.track tc a m i o) !! b =
          usage_by_agent tc !! b)
  /\ (usage_by_agent tc !! a = None ->
        usage_by_agent (TokenCounter.track tc a m i o) !! a =
          Some {| input_tokens := i; output_tokens := o; total_tokens := i + o |}
        /\ usage_by_agent
             (TokenCounter.track (TokenCounter.track tc a m 100 50) a m 10 5) !! a =
           Some {| input_tokens := 110; output_tokens := 55; total_tokens := 165 |}).
Proof.
  split; [apply track_lookup|].
  split; [reflexivity|].
  split; [intros b Hab; apply track_lookup_other, Hab|].
  intros Hfresh. split.
  - rewrite track_lookup, Hfresh. reflexivity.
  - rewrite !track_lookup, Hfresh. reflexivity.
Qed.

Lemma track_accumulates_witness :
  usage_by_agent (TokenCounter.track TokenCounter.new "A" "m" 7 3) !! "A" =
    Some {| input_tokens := 7; output_tokens := 3; total_tokens := 10 |}
  /\ usage_by_agent
       (TokenCounter.track (TokenCounter.track TokenCounter.new "A" "m" 100 50)
          "A" "m" 10 5) !! "A" =
     Some {| input_tokens := 110; output_tokens := 55; total_tokens := 165 |}.
Proof.
  destruct (track_accumulates TokenCounter.new "A" "m" 7 3) as (_ & _ & _ & H).
  apply H. reflexivity.
Defined.

(** ** Cache fingerprint *)

Lemma sort_keys_dict_order_irrelevant (kw kw' : list (string * json)) :
  NoDup (map fst kw) -> Permutation kw kw' ->
  Cache.sort_keys (JDict kw) = Cache.sort_keys (JDict kw').
Proof.
  intros Hnd Hp. simpl. f_equal.
  apply sort_items_order_irrelevant.
  - rewrite map_map. simpl. exact Hnd.
  - apply Permutation_map. exact Hp.
Qed.

(** C5. The fingerprint is a function of the key parts alone: it is computed
    from them and from the serializer and the digest, never from the state
    of the world, so that two environments that differ in their clock, their
    service and their disk give the same digest; and the order in which the
    keyword key parts are passed does not matter. *)
Theorem fingerprint_deterministic (E E' : Env) (args : list json)
    (kw kw' : list (string * json)) :
  json_dumps E = json_dumps E' ->
  md5_hexdigest E = md5_hexdigest E' ->
  NoDup (map fst kw) ->
  Permutation kw kw' ->
  Cache._get_cache_key E args kw = Cache._get_cache_key E' args kw'.
Proof.
  intros Hd Hm Hnd Hp. unfold Cache._get_cache_key.
  rewrite Hd, Hm. do 2 f_equal.
  pose proof (sort_keys_dict_order_irrelevant kw kw' Hnd Hp) as Hs.
  simpl in *. injection Hs as Hs. rewrite Hs. reflexivity.
Qed.

Lemma fingerprint_deterministic_witness :
  Cache._get_cache_key
    (Sample.env Sample.frozen (fun _ _ => ApiRaise RateLimitError)
       Sample.sound_disk)
    []
    [("agent_name", JStr "OracleAnalyst"); ("prompt", JStr "p");
     ("context", JStr "c")] =
  Cache._get_cache_key
    (Sample.env (fun n => Z.of_nat n) (fun _ _ => ApiMessage "{}" 1 1)
       (fun _ => OpenFails))
    []
    [("context", JStr "c"); ("agent_name", JStr "OracleAnalyst");
     ("prompt", JStr "p")].
Proof.
  apply fingerprint_deterministic.
  - reflexivity.
  - reflexivity.
  - apply (bool_decide_unpack _). vm_compute. exact I.
  - apply Permutation_sym, (Permutation_cons_app [_; _] []). reflexivity.
Defined.

(** ** Retry and backoff *)

Section Retry.
Context (E : Env) (cfg : Settings).

(** One iteration of the loop. *)
Lemma retry_loop_step (self : BaseAgent) (req : request) (max_retries : Z)
    (remaining : nat) (attempt : Z) (last : option exn) (w : world) :
  BaseAgent.retry_loop E cfg self req max_retries (S remaining) attempt last w =
    match messages_create E req w with
    | (Ok response, w') => (Ok response, w')
    | (Raise RateLimitError, w') =>
        if attempt <? max_retries - 1 then
          (sleep (RETRY_DELAY cfg * (attempt + 1)) ;;
           BaseAgent.retry_loop E cfg self req max_retries remaining
             (attempt + 1) (Some RateLimitError)) w'
        else (Raise RateLimitError, w')
    | (Raise e, w') => (Raise e, w')
    end.
Proof. reflexivity. Qed.

(** A service that keeps answering with the rate limit uses up every
    remaining attempt, with a linear wait after each but the last. *)
Lemma retry_loop_rate_limited (self : BaseAgent) (req : request)
    (max_retries : Z) (remaining : nat) :
  forall (attempt : Z) (last : option exn) (w : world),
    0 <= RETRY_DELAY cfg -> 0 <= attempt ->
    attempt + Z.of_nat (S remaining) = max_retries ->
    (forall k, (k <= remaining)%nat ->
       api E (api_calls w + k) req = ApiRaise RateLimitError) ->
    BaseAgent.retry_loop E cfg self req max_retries (S remaining) attempt last w =
      (Raise RateLimitError,
       after_attempts w (S remaining) (exhausted_log cfg req attempt remaining)).
Proof.
  induction remaining as [|n IH]; intros attempt last w Hd Ha Hmax Hapi.
  - rewrite retry_loop_step. unfold messages_create.
    pose proof (Hapi 0%nat (Nat.le_refl _)) as H0.
    rewrite Nat.add_0_r in H0. rewrite H0.
    replace (attempt <? max_retries - 1) with false
      by (symmetry; apply Z.ltb_ge; lia).
    unfold after_attempts. simpl. rewrite Nat.add_1_r. reflexivity.
  - rewrite retry_loop_step. unfold messages_create.
    pose proof (Hapi 0%nat (Nat.le_0_l _)) as H0.
    rewrite Nat.add_0_r in H0. rewrite H0.
    replace (attempt <? max_retries - 1) with true
      by (symmetry; apply Z.ltb_lt; lia).
    unfold bind, sleep.
    replace (RETRY_DELAY cfg * (attempt + 1) <? 0) with false
      by (symmetry; apply Z.ltb_ge; nia).
    rewrite IH; try lia.
    + unfold after_attempts.
      cbn [files clock_reads api_calls disk_writes events exhausted_log].
      f_equal. f_equal.
      * lia.
      * rewrite <- !app_assoc. reflexivity.
    + intros k Hk. cbn [api_calls].
      replace (S (api_calls w) + k)%nat with (api_calls w + S k)%nat by lia.
      apply Hapi. lia.
Qed.

(** C2. Against a service that answers every attempt with the rate limit,
    with three attempts configured and a base delay that [sleep] accepts,
    the retry loop calls the service exactly three times, sleeps the base
    delay times 1 after the first failed attempt and times 2 after the
    second, and then raises the rate-limit error. *)
Theorem retry_exhaustion (self : BaseAgent) (prompt : string)
    (max_retries : option Z) (kwargs : list (string * json)) (w : world) :
  let req := BaseAgent.api_request self prompt kwargs in
  BaseAgent.resolve_max_retries cfg max_retries = 3 ->
  0 <= RETRY_DELAY cfg ->
  (forall k, (k < 3)%nat -> api E (api_calls w + k) req = ApiRaise RateLimitError) ->
  BaseAgent._call_api_with_retry E cfg self prompt max_retries kwargs w =
    (Raise RateLimitError,
     {| files := files w; clock_reads := clock_reads w;
        api_calls := api_calls w + 3; disk_writes := disk_writes w;
        events := events w ++ [Called req; Slept (RETRY_DELAY cfg * 1);
                               Called req; Slept (RETRY_DELAY cfg * 2);
                               Called req] |}).
Proof.
  intros req Hmax Hd Hapi. unfold BaseAgent._call_api_with_retry.
  rewrite Hmax. change (Z.to_nat 3) with 3%nat.
  rewrite retry_loop_rate_limited; try lia.
  - reflexivity.
  - intros k Hk. apply Hapi. lia.
Qed.

(** The first attempt failing with anything but the rate limit ends the
    loop there. *)
Lemma first_attempt_terminal (self : BaseAgent) (prompt : string)
    (max_retries : option Z) (kwargs : list (string * json)) (w : world)
    (e : exn) :
  0 < BaseAgent.resolve_max_retries cfg max_retries ->
  api E (api_calls w) (BaseAgent.api_request self prompt kwargs) = ApiRaise e ->
  e <> RateLimitError ->
  BaseAgent._call_api_with_retry E cfg self prompt max_retries kwargs w =
    (Raise e,
     after_attempts w 1 [Called (BaseAgent.api_request self prompt kwargs)]).
Proof.
  intros Hmax Hapi He. unfold BaseAgent._call_api_with_retry.
  destruct (Z.to_nat (BaseAgent.resolve_max_retries cfg max_retries)) as [|n] eqn:Hn;
    [lia|].
  rewrite retry_loop_step. unfold messages_create. rewrite Hapi.
  unfold after_attempts. rewrite Nat.add_1_r.
  destruct e; try reflexivity. contradiction.
Qed.

(** C7. When the first attempt fails with anything but the rate limit, the
    retry loop raises that failure having called the service once and not
    slept: the call is all it adds to the log. *)
Theorem terminal_failure_not_retried (self : BaseAgent) (prompt : string)
    (max_retries : option Z) (kwargs : list (string * json)) (w : world)
    (e : exn) :
  let req := BaseAgent.api_request self prompt kwargs in
  0 < BaseAgent.resolve_max_retries cfg max_retries ->
  api E (api_calls w) req = ApiRaise e ->
  e <> RateLimitError ->
  BaseAgent._call_api_with_retry E cfg self prompt max_retries kwargs w =
    (Raise e,
     {| files := files w; clock_reads := clock_reads w;
        api_calls := api_calls w + 1; disk_writes := disk_writes w;
        events := events w ++ [Called req] |}).
Proof.
  intros req Hmax Hapi He.
  rewrite (first_attempt_terminal self prompt max_retries kwargs w e Hmax Hapi He).
  reflexivity.
Qed.
End Retry.

Lemma retry_exhaustion_witness :
  let E := Sample.env Sample.frozen (fun _ _ => ApiRaise RateLimitError)
             Sample.sound_disk in
  let agent := LeadAgent.new default_settings Sample.templates None in
  let req := BaseAgent.api_request agent "prompt" [] in
  BaseAgent._call_api_with_retry E default_settings agent "prompt" None []
    Sample.fresh =
  (Raise RateLimitError,
   {| files := ∅; clock_reads := 0; api_calls := 3; disk_writes := 0;
      events := [Called req; Slept 2; Called req; Slept 4; Called req] |}).
Proof.
  intros E agent req.
  apply (retry_exhaustion E default_settings agent "prompt" None [] Sample.fresh).
  - reflexivity.
  - simpl. lia.
  - intros k Hk. reflexivity.
Defined.

Lemma terminal_failure_not_retried_witness :
  let E := Sample.env Sample.frozen
             (fun _ _ => ApiRaise (APIError "overloaded")) Sample.sound_disk in
  let agent := LeadAgent.new default_settings Sample.templates None in
  BaseAgent._call_api_with_retry E default_settings agent "prompt" None []
    Sample.fresh =
  (Raise (APIError "overloaded"),
   {| files := ∅; clock_reads := 0; api_calls := 1; disk_writes := 0;
      events := [Called (BaseAgent.api_request agent "prompt" [])] |}).
Proof.
  intros E agent.
  apply (terminal_failure_not_retried E default_settings agent "prompt" None []
           Sample.fresh (APIError "overloaded")).
  - simpl. lia.
  - reflexivity.
  - discriminate.
Defined.

(** ** Cache entries *)

Section CacheEntries.
Context (E : Env).

(** A write that works leaves the value under the fingerprint, stamped
    with the reading of the clock taken for it. *)
Lemma set_stores (self : Cache) (value : json) (args : list json)
    (kwargs : list (string * json)) (w : world) :
  disk E (disk_writes w) = WriteOk ->
  Cache.set E self value args kwargs w =
    (Ok tt,
     {| files := <[Cache._get_cache_key E args kwargs :=
                     Entry (StampAt (clock E (clock_reads w))) (Some value)]>
                   (files w);
        clock_reads := S (clock_reads w); api_calls := api_calls w;
        disk_writes := S (disk_writes w); events := events w |}).
Proof.
  intros Hdisk. unfold Cache.set, bind, datetime_now, write_file.
  cbn [disk_writes files clock_reads api_calls events].
  rewrite Hdisk. reflexivity.
Qed.

(** A lookup that finds an entry no older than the time-to-live returns
    its value and leaves the directory alone. *)
Lemma get_live (self : Cache) (value : json) (args : list json)
    (kwargs : list (string * json)) (w : world) (t : Z) :
  files w !! Cache._get_cache_key E args kwargs =
    Some (Entry (StampAt t) (Some value)) ->
  clock E (clock_reads w) - t <= Cache.ttl self ->
  Cache.get E self args kwargs w = (Ok value, after_clock_read w).
Proof.
  intros Hfile Hage. unfold Cache.get, bind, read_file.
  rewrite Hfile. unfold datetime_now.
  replace (Cache.ttl self <? clock E (clock_reads w) - t) with false
    by (symmetry; apply Z.ltb_ge; exact Hage).
  reflexivity.
Qed.

(** A lookup that finds an entry older than the time-to-live deletes its
    file and returns None. *)
Lemma get_expired (self : Cache) (value : option json) (args : list json)
    (kwargs : list (string * json)) (w : world) (t : Z) :
  files w !! Cache._get_cache_key E args kwargs =
    Some (Entry (StampAt t) value) ->
  Cache.ttl self < clock E (clock_reads w) - t ->
  Cache.get E self args kwargs w =
    (Ok JNull,
     with_files (delete (Cache._get_cache_key E args kwargs) (files w))
       (after_clock_read w)).
Proof.
  intros Hfile Hage. unfold Cache.get, bind, read_file.
  rewrite Hfile. unfold datetime_now.
  replace (Cache.ttl self <? clock E (clock_reads w) - t) with true
    by (symmetry; apply Z.ltb_lt; exact Hage).
  reflexivity.
Qed.

(** C6. After a [set] of [v] under key parts [k] that wrote its file, the
    entry is there with the time of the write; from then on, as long as
    the file is the one [set] wrote, a [get] of [k] returns [v] while the
    age of the entry does not exceed the time-to-live (so also right
    after the write, for a time-to-live that is not negative), and, once
    the age exceeds it, returns None and removes the file. *)
Theorem set_then_get (self : Cache) (v : json) (args : list json)
    (kwargs : list (string * json)) (w : world) :
  disk E (disk_writes w) = WriteOk ->
  let key := Cache._get_cache_key E args kwargs in
  let written := clock E (clock_reads w) in
  exists w1,
    Cache.set E self v args kwargs w = (Ok tt, w1)
    /\ files w1 !! key = Some (Entry (StampAt written) (Some v))
    /\ forall w2,
         files w2 !! key = files w1 !! key ->
         let now := clock E (clock_reads w2) in
         (now - written <= Cache.ttl self ->
            Cache.get E self args kwargs w2 = (Ok v, after_clock_read w2))
         /\ (Cache.ttl self < now - written ->
               exists w3,
                 Cache.get E self args kwargs w2 = (Ok JNull, w3)
                 /\ files w3 !! key = None
                 /\ forall other, other <> key ->
                      files w3 !! other = files w2 !! other).
Proof.
  intros Hdisk key written.
  eexists. split; [apply set_stores, Hdisk|].
  cbn [files]. split; [apply lookup_insert_eq|].
  intros w2 Hsame. rewrite lookup_insert_eq in Hsame. split.
  - intros Hage. eapply get_live; eauto.
  - intros Hage. eexists. split; [eapply get_expired; eauto|].
    cbn [with_files files]. split.
    + apply lookup_delete_eq.
    + intros other Hne. apply lookup_delete_ne.
      intros Heq. apply Hne. symmetry. exact Heq.
Qed.
End CacheEntries.

Lemma set_then_get_witness :
  let E := Sample.env Sample.frozen (fun _ _ => ApiRaise RateLimitError)
             Sample.sound_disk in
  let E' := Sample.env (fun n => 1000 + Z.of_nat n * 90000000000)
              (fun _ _ => ApiRaise RateLimitError) Sample.sound_disk in
  (exists w1,
     Cache.set E Cache.new (JStr "v") [] [("prompt", JStr "p")] Sample.fresh
       = (Ok tt, w1)
     /\ Cache.get E Cache.new [] [("prompt", JStr "p")] w1
        = (Ok (JStr "v"), after_clock_read w1))
  /\ (exists w1 w3,
        Cache.set E' Cache.new (JStr "v") [] [("prompt", JStr "p")] Sample.fresh
          = (Ok tt, w1)
        /\ Cache.get E' Cache.new [] [("prompt", JStr "p")] w1 = (Ok JNull, w3)
        /\ files w3 = ∅).
Proof.
  intros E E'. split.
  - destruct (set_then_get E Cache.new (JStr "v") [] [("prompt", JStr "p")]
                Sample.fresh eq_refl) as (w1 & Hset & _ & Hget).
    exists w1. split; [exact Hset|].
    apply (Hget w1 eq_refl). injection Hset as <-. vm_compute. discriminate.
  - destruct (set_then_get E' Cache.new (JStr "v") [] [("prompt", JStr "p")]
                Sample.fresh eq_refl) as (w1 & Hset & _ & Hget).
    destruct (Hget w1 eq_refl) as [_ Hexp].
    destruct Hexp as (w3 & Hg & _ & _).
    + injection Hset as <-. vm_compute. reflexivity.
    + exists w1, w3. split; [exact Hset|]. split; [exact Hg|].
      injection Hset as <-. vm_compute in Hg. injection Hg as <-.
      vm_compute. reflexivity.
Defined.

(** ** Invocation through the cache *)

Section Invocation.
Context (E : Env) (cfg : Settings).

(** A hit: the entry is returned with no tokens counted. *)
Lemma invoke_hit (self : BaseAgent) (c : Cache) (prompt context : string)
    (use_cache : bool) (max_retries : option Z)
    (kwargs : list (string * json)) (w w' : world) (d text : json) :
  BaseAgent.caching cfg self use_cache = Some c ->
  Cache.get E c [] (BaseAgent.key_parts self prompt context) w = (Ok d, w') ->
  truthy d = true ->
  getitem d "text" = Ok text ->
  BaseAgent.invoke E cfg self prompt context use_cache max_retries kwargs w =
    (Ok (text, 0, 0), w').
Proof.
  intros Hc Hget Ht Htext. unfold BaseAgent.invoke. rewrite Hc.
  unfold bind at 1. rewrite Hget, Ht.
  unfold bind, lift_result, ret. rewrite Htext. reflexivity.
Qed.

(** A miss: the service is called and the answer stored. *)
Lemma invoke_miss (self : BaseAgent) (c : Cache) (prompt context : string)
    (use_cache : bool) (max_retries : option Z)
    (kwargs : list (string * json)) (w w' : world) (d : json) :
  BaseAgent.caching cfg self use_cache = Some c ->
  Cache.get E c [] (BaseAgent.key_parts self prompt context) w = (Ok d, w') ->
  truthy d = false ->
  BaseAgent.invoke E cfg self prompt context use_cache max_retries kwargs w =
    BaseAgent.call_and_store E cfg self prompt context use_cache max_retries kwargs w'.
Proof.
  intros Hc Hget Ht. unfold BaseAgent.invoke. rewrite Hc.
  unfold bind at 1. rewrite Hget, Ht. reflexivity.
Qed.

(** [get] returns without raising unless the file is a JSON document it
    cannot index, and what it returns, when truthy, is the value of an
    entry it found and left in place. *)
Lemma get_truthy_inv (c : Cache) (args : list json)
    (kwargs : list (string * json)) (w w' : world) (d : json) :
  Cache.get E c args kwargs w = (Ok d, w') ->
  truthy d = true ->
  exists t,
    files w !! Cache._get_cache_key E args kwargs =
      Some (Entry (StampAt t) (Some d))
    /\ w' = after_clock_read w.
Proof.
  unfold Cache.get, bind, read_file.
  destruct (files w !! Cache._get_cache_key E args kwargs)
    as [[| |[| |t] [v|]]|] eqn:Hf; unfold ret, raise, datetime_now;
    try (intros [= <- <-]; discriminate); try discriminate.
  - destruct (Cache.ttl c <? clock E (clock_reads w) - t).
    + unfold unlink. intros [= <- <-]. discriminate.
    + intros [= <- <-] _. exists t. split; reflexivity.
  - destruct (Cache.ttl c <? clock E (clock_reads w) - t).
    + unfold unlink. intros [= <- <-]. discriminate.
    + intros [= <- <-]. discriminate.
Qed.

(** A [set] that returns has written its entry. *)
Lemma set_ok_inv (c : Cache) (value : json) (args : list json)
    (kwargs : list (string * json)) (w w' : world) :
  Cache.set E c value args kwargs w = (Ok tt, w') ->
  files w' !! Cache._get_cache_key E args kwargs =
    Some (Entry (StampAt (clock E (clock_reads w))) (Some value)).
Proof.
  unfold Cache.set, bind, datetime_now, write_file.
  cbn [disk_writes files clock_reads api_calls events].
  destruct (disk E (disk_writes w)); intros [= <-].
  cbn [files]. apply lookup_insert_eq.
Qed.

(** A successful invocation with the cache in use leaves under its
    fingerprint an entry whose text is the text it returned. *)
Lemma invoke_leaves_entry (self : BaseAgent) (c : Cache)
    (prompt context : string) (max_retries : option Z)
    (kwargs : list (string * json)) (w w1 : world) (text : json) (i o : Z) :
  BaseAgent.caching cfg self true = Some c ->
  BaseAgent.invoke E cfg self prompt context true max_retries kwargs w =
    (Ok (text, i, o), w1) ->
  exists t d,
    files w1 !! Cache._get_cache_key E [] (BaseAgent.key_parts self prompt context) =
      Some (Entry (StampAt t) (Some d))
    /\ truthy d = true
    /\ getitem d "text" = Ok text.
Proof.
  intros Hc. unfold BaseAgent.invoke. rewrite Hc. unfold bind at 1.
  destruct (Cache.get E c [] (BaseAgent.key_parts self prompt context) w)
    as [[d|e] w0] eqn:Hget; [|discriminate].
  destruct (truthy d) eqn:Ht.
  - unfold bind, lift_result, ret.
    destruct (getitem d "text") as [text'|] eqn:Htext; [|discriminate].
    intros [= <- <- <- <-].
    destruct (get_truthy_inv _ _ _ _ _ _ Hget Ht) as (t & Hf & ->).
    exists t, d. auto.
  - unfold BaseAgent.call_and_store. rewrite Hc. unfold bind at 1.
    destruct (BaseAgent._call_api_with_retry E cfg self
                (BaseAgent._build_prompt self prompt context)
                max_retries kwargs w0) as [[[[txt i'] o']|e] w'] eqn:Hcall;
      [|discriminate].
    unfold bind, ret.
    destruct (Cache.set E c
                (JDict [("text", JStr txt); ("input_tokens", JInt i');
                        ("output_tokens", JInt o')]) []
                (BaseAgent.key_parts self prompt context) w')
      as [[[]|e] w''] eqn:Hset; [|discriminate].
    intros [= <- <- <- <-].
    eexists _, _. split; [eapply set_ok_inv; exact Hset|].
    split; reflexivity.
Qed.

(** C3. With caching enabled and a cache present, once an invocation with
    the cache in use has succeeded, its result is stored under the
    fingerprint of (agent name, prompt, context); as long as that file
    stays as it is and its age does not exceed the time-to-live, a later
    invocation with the same agent, prompt and context and the cache in
    use returns the same text with 0 input and 0 output tokens, and its
    only effect is one reading of the clock: the service is not called. *)
Theorem cache_hit_zero_cost (self : BaseAgent) (c : Cache)
    (prompt context : string) (max_retries : option Z)
    (kwargs : list (string * json)) (w w1 : world) (text : json) (i o : Z) :
  BaseAgent.caching cfg self true = Some c ->
  BaseAgent.invoke E cfg self prompt context true max_retries kwargs w =
    (Ok (text, i, o), w1) ->
  let key := Cache._get_cache_key E [] (BaseAgent.key_parts self prompt context) in
  exists t d,
    files w1 !! key = Some (Entry (StampAt t) (Some d))
    /\ forall max_retries' kwargs' w2,
         files w2 !! key = files w1 !! key ->
         clock E (clock_reads w2) - t <= Cache.ttl c ->
         BaseAgent.invoke E cfg self prompt context true max_retries' kwargs' w2 =
           (Ok (text, 0, 0), after_clock_read w2)
         /\ api_calls (after_clock_read w2) = api_calls w2.
Proof.
  intros Hc Hinv key.
  destruct (invoke_leaves_entry _ _ _ _ _ _ _ _ _ _ _ Hc Hinv)
    as (t & d & Hf & Ht & Htext).
  exists t, d. split; [exact Hf|].
  intros max_retries' kwargs' w2 Hsame Hage. split; [|reflexivity].
  eapply invoke_hit; eauto.
  eapply get_live; [|exact Hage]. fold key. rewrite Hsame. exact Hf.
Qed.

(** C4, as the code has it. When the cache is in use and was consulted in
    vain, the call to the service has succeeded and the write of the cache
    file then fails, the failure is not retried (one write is attempted,
    the service is not called again) and it is not swallowed: [invoke]
    raises the storage error instead of returning the result. *)
Theorem cache_write_failure_propagates (self : BaseAgent) (c : Cache)
    (prompt context : string) (use_cache : bool) (max_retries : option Z)
    (kwargs : list (string * json)) (w w0 w1 : world) (d : json)
    (text : string) (i o : Z) :
  BaseAgent.caching cfg self use_cache = Some c ->
  Cache.get E c [] (BaseAgent.key_parts self prompt context) w = (Ok d, w0) ->
  truthy d = false ->
  BaseAgent._call_api_with_retry E cfg self
    (BaseAgent._build_prompt self prompt context) max_retries kwargs w0 =
    (Ok (text, i, o), w1) ->
  disk E (disk_writes w1) <> WriteOk ->
  exists w2,
    BaseAgent.invoke E cfg self prompt context use_cache max_retries kwargs w =
      (Raise OSError, w2)
    /\ disk_writes w2 = S (disk_writes w1)
    /\ api_calls w2 = api_calls w1
    /\ events w2 = events w1.
Proof.
  intros Hc Hget Ht Hcall Hdisk.
  rewrite (invoke_miss _ _ _ _ _ _ _ _ _ _ Hc Hget Ht).
  unfold BaseAgent.call_and_store. rewrite Hc. unfold bind at 1. rewrite Hcall.
  unfold bind, Cache.set, bind, datetime_now, write_file.
  cbn [disk_writes files clock_reads api_calls events].
  destruct (disk E (disk_writes w1)); [contradiction| |];
    eexists; repeat split.
Qed.
End Invocation.

Lemma cache_hit_zero_cost_witness :
  let E := Sample.env Sample.frozen (fun _ _ => ApiMessage "{}" 100 50)
             Sample.sound_disk in
  let agent := LeadAgent.new default_settings Sample.templates (Some Cache.new) in
  exists w1,
    BaseAgent.invoke E default_settings agent "p" "c" true None [] Sample.fresh =
      (Ok (JStr "{}", 100, 50), w1)
    /\ api_calls w1 = 1%nat
    /\ BaseAgent.invoke E default_settings agent "p" "c" true None [] w1 =
         (Ok (JStr "{}", 0, 0), after_clock_read w1).
Proof.
  intros E agent.
  set (w1 := snd (BaseAgent.invoke E default_settings agent "p" "c" true None []
                    Sample.fresh)).
  assert (Hinv : BaseAgent.invoke E default_settings agent "p" "c" true None []
                   Sample.fresh = (Ok (JStr "{}", 100, 50), w1))
    by (vm_compute; reflexivity).
  exists w1. split; [exact Hinv|]. split; [vm_compute; reflexivity|].
  destruct (cache_hit_zero_cost E default_settings agent Cache.new "p" "c" None []
              Sample.fresh w1 (JStr "{}") 100 50 eq_refl Hinv)
    as (t & d & Hf & Hagain).
  apply (Hagain None [] w1 eq_refl).
  vm_compute in Hf. injection Hf as <- <-. vm_compute. discriminate.
Defined.

(** C4 as stated fails: the service answers, [open] on the cache file fails,
    and [invoke] raises instead of returning the answer it has. *)
Lemma cache_write_failure_counterexample :
  let E := Sample.env Sample.frozen (fun _ _ => ApiMessage "{}" 100 50)
             (fun _ => OpenFails) in
  let agent := LeadAgent.new default_settings Sample.templates (Some Cache.new) in
  let req := BaseAgent.api_request agent (BaseAgent._build_prompt agent "p" "c") [] in
  BaseAgent._call_api_with_retry E default_settings agent
    (BaseAgent._build_prompt agent "p" "c") None [] Sample.fresh =
    (Ok ("{}", 100, 50),
     {| files := ∅; clock_reads := 0; api_calls := 1; disk_writes := 0;
        events := [Called req] |})
  /\ BaseAgent.invoke E default_settings agent "p" "c" true None [] Sample.fresh =
       (Raise OSError,
        {| files := ∅; clock_reads := 1; api_calls := 1; disk_writes := 1;
           events := [Called req] |})
  /\ ~ (exists w', BaseAgent.invoke E default_settings agent "p" "c" true None []
                     Sample.fresh = (Ok (JStr "{}", 100, 50), w')).
Proof.
  intros E agent req.
  assert (Hinv : BaseAgent.invoke E default_settings agent "p" "c" true None []
                   Sample.fresh =
                 (Raise OSError,
                  {| files := ∅; clock_reads := 1; api_calls := 1;
                     disk_writes := 1; events := [Called req] |}))
    by (vm_compute; reflexivity).
  split; [vm_compute; reflexivity|]. split; [exact Hinv|].
  intros [w' Hw']. rewrite Hinv in Hw'. discriminate.
Qed.

Lemma cache_write_failure_propagates_witness :
  let E := Sample.env Sample.frozen (fun _ _ => ApiMessage "{}" 100 50)
             (fun _ => DumpFails) in
  let agent := LeadAgent.new default_settings Sample.templates (Some Cache.new) in
  let req := BaseAgent.api_request agent (BaseAgent._build_prompt agent "p" "c") [] in
  exists w2,
    BaseAgent.invoke E default_settings agent "p" "c" true None [] Sample.fresh =
      (Raise OSError, w2)
    /\ disk_writes w2 = 1%nat
    /\ api_calls w2 = 1%nat
    /\ events w2 = [Called req].
Proof.
  intros E agent req.
  apply (cache_write_failure_propagates E default_settings agent Cache.new
           "p" "c" true None [] Sample.fresh Sample.fresh
           {| files := ∅; clock_reads := 0; api_calls := 1; disk_writes := 0;
              events := [Called req] |} JNull "{}" 100 50).
  - reflexivity.
  - vm_compute. reflexivity.
  - reflexivity.
  - vm_compute. reflexivity.
  - discriminate.
Defined.

(** ** Decoding and the staged pipeline *)

Section Stages.
Context (E : Env) (cfg : Settings) (T : Templates).

Lemma default_locations_carry_names (companies : list string) :
  Forall2 (fun name d => getitem d "company" = Ok (JStr name))
    companies (map LeadAgent.default_location companies).
Proof.
  induction companies as [|name rest IH]; simpl; constructor.
  - reflexivity.
  - exact IH.
Qed.

Lemma locate_documents_undecodable (self : BaseAgent)
    (companies : list string) (w w' : world) (txt : json) (i o : Z) :
  BaseAgent.invoke E cfg self (locate_prompt T (str_join ", " companies))
    "" true None [] w = (Ok (txt, i, o), w') ->
  BaseAgent.extract_json E self txt = Ok JNull ->
  LeadAgent.locate_documents E cfg T self companies w =
    (Ok (JList (map LeadAgent.default_location companies), i, o), w').
Proof.
  intros Hinv Hdec. unfold LeadAgent.locate_documents.
  unfold bind at 1. rewrite Hinv.
  unfold bind at 1. unfold lift_result at 1. rewrite Hdec.
  reflexivity.
Qed.

(** C8. When the response of the locator stage decodes to nothing, phase 1
    returns all the same: its result is the list of the default
    descriptors of the requested companies, one per company and in their
    order, each with the name of its company, together with the token
    counts of the invocation. *)
Theorem undecodable_locations_defaulted (orc : Orchestrator)
    (companies : list string) (w w' : world) (txt : json) (i o : Z) :
  let lead := LeadAgent.new cfg T (orch_cache orc) in
  BaseAgent.invoke E cfg lead (locate_prompt T (str_join ", " companies))
    "" true None [] w = (Ok (txt, i, o), w') ->
  BaseAgent.extract_json E lead txt = Ok JNull ->
  exists locations,
    MultiAgentOrchestrator._phase_1_locate_documents E cfg T companies (orc, w) =
      (Ok (JList locations, i, o), (orc, w'))
    /\ locations = map LeadAgent.default_location companies
    /\ length locations = length companies
    /\ Forall2 (fun name d => getitem d "company" = Ok (JStr name))
         companies locations.
Proof.
  intros lead Hinv Hdec.
  exists (map LeadAgent.default_location companies).
  split; [|split; [reflexivity|split;
    [apply length_map|apply default_locations_carry_names]]].
  unfold MultiAgentOrchestrator._phase_1_locate_documents.
  unfold bind at 1. unfold MultiAgentOrchestrator.self_ at 1. cbn [fst].
  unfold bind at 1. unfold MultiAgentOrchestrator.in_world at 1. cbn [snd fst].
  fold lead.
  rewrite (locate_documents_undecodable lead companies w w' txt i o Hinv Hdec).
  destruct (VERBOSE cfg); reflexivity.
Qed.

Lemma analyze_documents_undecodable (self : CompanyAnalysisAgent)
    (document_urls : list (string * json)) (content : option string)
    (w w' : world) (txt : json) (i o : Z) :
  BaseAgent.invoke E cfg (base self)
    (CompanyAnalysisAgent.build_prompt E T self content)
    (CompanyAnalysisAgent.build_context E self document_urls)
    true None [] w = (Ok (txt, i, o), w') ->
  BaseAgent.extract_json E (base self) txt = Ok JNull ->
  CompanyAnalysisAgent.analyze_documents E cfg T self document_urls content w =
    (Ok (error_placeholder (agent_company self) document_urls, i, o), w').
Proof.
  intros Hinv Hdec. unfold CompanyAnalysisAgent.analyze_documents.
  unfold bind at 1. rewrite Hinv.
  unfold bind at 1. unfold lift_result at 1. rewrite Hdec.
  reflexivity.
Qed.

Lemma analyze_each_cons (doc_info : json) (rest : list json)
    (analyses : list CompanyAnalysis) (s : MultiAgentOrchestrator.run_state) :
  MultiAgentOrchestrator.analyze_each E cfg T (doc_info :: rest) analyses s =
    match MultiAgentOrchestrator.analyze_one E cfg T doc_info s with
    | (Ok analysis, s') =>
        MultiAgentOrchestrator.analyze_each E cfg T rest
          (app analyses [analysis]) s'
    | (Raise e, s') => (Raise e, s')
    end.
Proof. reflexivity. Qed.

Lemma analyze_each_app (before rest : list json) :
  forall (analyses : list CompanyAnalysis) (s : MultiAgentOrchestrator.run_state),
    MultiAgentOrchestrator.analyze_each E cfg T (app before rest) analyses s =
      match MultiAgentOrchestrator.analyze_each E cfg T before analyses s with
      | (Ok done, s') => MultiAgentOrchestrator.analyze_each E cfg T rest done s'
      | (Raise e, s') => (Raise e, s')
      end.
Proof.
  induction before as [|doc before IH]; intros analyses s; [reflexivity|].
  simpl app. rewrite !analyze_each_cons.
  destruct (MultiAgentOrchestrator.analyze_one E cfg T doc s) as [[a|e] s'];
    [apply IH|reflexivity].
Qed.

(** What one iteration does with the outcome of its worker. *)
Lemma analyze_one_unfold (d : list (string * json)) (company : json)
    (orc : Orchestrator) (w : world) :
  assoc "company" d = Some company ->
  MultiAgentOrchestrator.analyze_one E cfg T (JDict d) (orc, w) =
    match CompanyAnalysisAgent.analyze_documents E cfg T
            (CompanyAnalysisAgent.new E cfg T company (orch_cache orc)) d None w
    with
    | (Ok (analysis, i, o), w') =>
        if VERBOSE cfg then
          match MultiAgentOrchestrator.capex_preview (capex_ai analysis) with
          | Ok _ => (Ok analysis, (with_usage E cfg orc company i o, w'))
          | Raise e => (Raise e, (with_usage E cfg orc company i o, w'))
          end
        else (Ok analysis, (with_usage E cfg orc company i o, w'))
    | (Raise e, w') => (Raise e, (orc, w'))
    end.
Proof.
  intros Hc. unfold MultiAgentOrchestrator.analyze_one.
  unfold bind at 1. unfold lift_result at 1. simpl getitem. rewrite Hc.
  unfold bind at 1. unfold MultiAgentOrchestrator.self_ at 1. cbn [fst].
  unfold bind at 1. unfold MultiAgentOrchestrator.in_world at 1. cbn [snd fst].
  destruct (CompanyAnalysisAgent.analyze_documents E cfg T
              (CompanyAnalysisAgent.new E cfg T company (orch_cache orc)) d None w)
    as [[[[analysis i] o]|e] w']; [|reflexivity].
  unfold bind, MultiAgentOrchestrator.record_usage, lift_result, ret.
  cbn [fst snd]. fold (with_usage E cfg orc company i o).
  destruct (VERBOSE cfg); [|reflexivity].
  destruct (MultiAgentOrchestrator.capex_preview (capex_ai analysis)) as [[]|];
    reflexivity.
Qed.

(** C9. When the response of an analyzer decodes to nothing,
    [analyze_documents] returns an analysis of its company all the same,
    with both counts 0 and the texts set to the error placeholders, and
    the token counts of the invocation; the loop of phase 2 records the
    usage, keeps the placeholder as the result of that item and goes on
    with the remaining descriptors. *)
Theorem undecodable_analysis_placeholder (orc : Orchestrator)
    (document_urls : list (string * json)) (company : json)
    (rest : list json) (analyses : list CompanyAnalysis)
    (w w' : world) (txt : json) (i o : Z) :
  let self := CompanyAnalysisAgent.new E cfg T company (orch_cache orc) in
  assoc "company" document_urls = Some company ->
  BaseAgent.invoke E cfg (base self)
    (CompanyAnalysisAgent.build_prompt E T self None)
    (CompanyAnalysisAgent.build_context E self document_urls)
    true None [] w = (Ok (txt, i, o), w') ->
  BaseAgent.extract_json E (base self) txt = Ok JNull ->
  CompanyAnalysisAgent.analyze_documents E cfg T self document_urls None w =
    (Ok ({| company := company;
            gen_ai_mentions := JInt 0;
            ml_mentions := JInt 0;
            capex_ai := JStr "Error in analysis";
            cfo_quote := JStr "Error in analysis";
            key_insights := JStr "Analysis failed";
            documents_analyzed :=
              documents_analyzed (error_placeholder company document_urls) |},
         i, o), w')
  /\ MultiAgentOrchestrator.analyze_each E cfg T (JDict document_urls :: rest)
       analyses (orc, w) =
     MultiAgentOrchestrator.analyze_each E cfg T rest
       (app analyses [error_placeholder company document_urls])
       (with_usage E cfg orc company i o, w').
Proof.
  intros self Hcompany Hinv Hdec.
  pose proof (analyze_documents_undecodable self document_urls None w w' txt i o
                Hinv Hdec) as Han.
  split; [exact Han|].
  rewrite analyze_each_cons, (analyze_one_unfold _ company) by exact Hcompany.
  fold self. rewrite Han. cbn [capex_ai error_placeholder].
  destruct (VERBOSE cfg); reflexivity.
Qed.

(** A worker whose cache holds nothing for its request and whose first
    call to the service fails for good raises that failure. *)
Lemma invoke_terminal_failure (self : BaseAgent) (prompt context : string)
    (w : world) (e : exn) :
  let req := BaseAgent.api_request self
               (BaseAgent._build_prompt self prompt context) [] in
  (forall c, BaseAgent.caching cfg self true = Some c ->
     files w !! Cache._get_cache_key E [] (BaseAgent.key_parts self prompt context)
       = None) ->
  0 < MAX_RETRIES cfg ->
  api E (api_calls w) req = ApiRaise e ->
  e <> RateLimitError ->
  BaseAgent.invoke E cfg self prompt context true None [] w =
    (Raise e, after_attempts w 1 [Called req]).
Proof.
  intros req Hmiss Hmax Hapi He.
  assert (Hcall : BaseAgent.call_and_store E cfg self prompt context true None [] w =
                  (Raise e, after_attempts w 1 [Called req])).
  { unfold BaseAgent.call_and_store, bind.
    rewrite (first_attempt_terminal E cfg self _ None [] w e Hmax Hapi He).
    reflexivity. }
  unfold BaseAgent.invoke.
  destruct (BaseAgent.caching cfg self true) as [c|] eqn:Hc; [|exact Hcall].
  unfold bind, Cache.get, bind, read_file.
  rewrite (Hmiss c eq_refl). exact Hcall.
Qed.

(** C1, as the code has it. Phase 2 has no handler around its workers: when
    the descriptors before some item have been analysed and the worker of
    that item, finding nothing in the cache, has its call to the service
    fail with an error that is not the rate limit, phase 2 raises that
    error and returns no list.  The orchestrator is left as the earlier
    items left it, the failed call is the last effect on the world, and
    the descriptors after the item play no part. *)
Theorem worker_failure_aborts_phase_2 (before after : list json)
    (d : list (string * json)) (company : json)
    (analyses : list CompanyAnalysis) (orc orc1 : Orchestrator)
    (w w1 : world) (e : exn) :
  let agent := CompanyAnalysisAgent.new E cfg T company (orch_cache orc1) in
  let prompt := CompanyAnalysisAgent.build_prompt E T agent None in
  let context := CompanyAnalysisAgent.build_context E agent d in
  let req := BaseAgent.api_request (base agent)
               (BaseAgent._build_prompt (base agent) prompt context) [] in
  MultiAgentOrchestrator._phase_2_analyze_companies E cfg T before (orc, w) =
    (Ok analyses, (orc1, w1)) ->
  assoc "company" d = Some company ->
  (forall c, BaseAgent.caching cfg (base agent) true = Some c ->
     files w1 !! Cache._get_cache_key E []
                   (BaseAgent.key_parts (base agent) prompt context) = None) ->
  0 < MAX_RETRIES cfg ->
  api E (api_calls w1) req = ApiRaise e ->
  e <> RateLimitError ->
  MultiAgentOrchestrator._phase_2_analyze_companies E cfg T
    (app before (JDict d :: after)) (orc, w) =
    (Raise e,
     (orc1,
      {| files := files w1; clock_reads := clock_reads w1;
         api_calls := api_calls w1 + 1; disk_writes := disk_writes w1;
         events := events w1 ++ [Called req] |})).
Proof.
  intros agent prompt context req Hbefore Hcompany Hmiss Hmax Hapi He.
  unfold MultiAgentOrchestrator._phase_2_analyze_companies in *.
  rewrite analyze_each_app, Hbefore, analyze_each_cons.
  rewrite (analyze_one_unfold _ company) by exact Hcompany.
  fold agent. unfold CompanyAnalysisAgent.analyze_documents.
  unfold bind at 1. fold prompt context.
  rewrite (invoke_terminal_failure (base agent) prompt context w1 e
             Hmiss Hmax Hapi He).
  reflexivity.
Qed.
End Stages.

(** ** The pipeline on concrete runs *)

Lemma undecodable_locations_defaulted_witness :
  let E := Sample.env Sample.frozen Run.prose Sample.sound_disk in
  exists s',
    MultiAgentOrchestrator._phase_1_locate_documents E default_settings
      Sample.templates ["Oracle"; "IBM"] Run.start =
    (Ok (JList [LeadAgent.default_location "Oracle";
                LeadAgent.default_location "IBM"], 10, 5), s').
Proof.
  intros E.
  set (lead := LeadAgent.new default_settings Sample.templates (Some Cache.new)).
  set (w' := snd (BaseAgent.invoke E default_settings lead
                    (locate_prompt Sample.templates "Oracle, IBM") "" true None []
                    Sample.fresh)).
  destruct (undecodable_locations_defaulted E default_settings Sample.templates
              (MultiAgentOrchestrator.new default_settings) ["Oracle"; "IBM"]
              Sample.fresh w' (JStr "I could not find the filings.") 10 5)
    as (locations & Hrun & -> & _).
  - vm_compute. reflexivity.
  - vm_compute. reflexivity.
  - eexists. exact Hrun.
Defined.

Lemma undecodable_analysis_placeholder_witness :
  let E := Sample.env Sample.frozen Run.prose Sample.sound_disk in
  let agent := CompanyAnalysisAgent.new E default_settings Sample.templates
                 (JStr "Oracle") (Some Cache.new) in
  exists w',
    CompanyAnalysisAgent.analyze_documents E default_settings Sample.templates
      agent (Run.descriptor "Oracle") None Sample.fresh =
    (Ok ({| company := JStr "Oracle";
            gen_ai_mentions := JInt 0;
            ml_mentions := JInt 0;
            capex_ai := JStr "Error in analysis";
            cfo_quote := JStr "Error in analysis";
            key_insights := JStr "Analysis failed";
            documents_analyzed := [JStr "https://www.sec.gov/Oracle"; JStr ""] |},
         10, 5), w').
Proof.
  intros E agent.
  set (w' := snd (BaseAgent.invoke E default_settings (base agent)
                    (CompanyAnalysisAgent.build_prompt E Sample.templates agent None)
                    (CompanyAnalysisAgent.build_context E agent (Run.descriptor "Oracle"))
                    true None [] Sample.fresh)).
  destruct (undecodable_analysis_placeholder E default_settings Sample.templates
              (MultiAgentOrchestrator.new default_settings)
              (Run.descriptor "Oracle") (JStr "Oracle") [] []
              Sample.fresh w' (JStr "I could not find the filings.") 10 5)
    as [Han _].
  - reflexivity.
  - vm_compute. reflexivity.
  - vm_compute. reflexivity.
  - exists w'. exact Han.
Defined.

(** C1 as stated fails: of three descriptors, the worker of the second has
    its call to the service fail for good; phase 2 raises that error, returns
    no list, and the third worker never calls the service. *)
Lemma fan_out_isolation_counterexample :
  let E := Sample.env Sample.frozen Run.second_call_fails Sample.sound_disk in
  let run := MultiAgentOrchestrator._phase_2_analyze_companies E default_settings
               Sample.templates
               [JDict (Run.descriptor "Oracle"); JDict (Run.descriptor "IBM");
                JDict (Run.descriptor "Cisco")] Run.start in
  fst run = Raise (APIError "overloaded")
  /\ api_calls (snd (snd run)) = 2%nat
  /\ ~ (exists analyses s', run = (Ok analyses, s') /\ length analyses = 3%nat).
Proof.
  intros E run.
  assert (Hrun : fst run = Raise (APIError "overloaded"))
    by (vm_compute; reflexivity).
  split; [exact Hrun|]. split; [vm_compute; reflexivity|].
  intros (analyses & s' & Hok & _). rewrite Hok in Hrun. discriminate.
Qed.

Lemma worker_failure_aborts_phase_2_witness :
  let E := Sample.env Sample.frozen Run.second_call_fails Sample.sound_disk in
  fst (MultiAgentOrchestrator._phase_2_analyze_companies E default_settings
         Sample.templates
         [JDict (Run.descriptor "Oracle"); JDict (Run.descriptor "IBM");
          JDict (Run.descriptor "Cisco")] Run.start) =
    Raise (APIError "overloaded").
Proof.
  intros E. unfold Run.start.
  destruct (MultiAgentOrchestrator._phase_2_analyze_companies E default_settings
              Sample.templates [JDict (Run.descriptor "Oracle")]
              (MultiAgentOrchestrator.new default_settings, Sample.fresh))
    as [[analyses|e] [orc1 w1]] eqn:Hbefore.
  - pose proof (worker_failure_aborts_phase_2 E default_settings Sample.templates
                  [JDict (Run.descriptor "Oracle")] [JDict (Run.descriptor "Cisco")]
                  (Run.descriptor "IBM") (JStr "IBM") analyses
                  (MultiAgentOrchestrator.new default_settings) orc1
                  Sample.fresh w1 (APIError "overloaded") Hbefore eq_refl) as H.
    simpl app in H. rewrite H; [reflexivity| | | |].
    + intros c _. vm_compute in Hbefore. injection Hbefore as <- <- <-.
      vm_compute. reflexivity.
    + simpl. lia.
    + vm_compute in Hbefore. injection Hbefore as <- <- <-. reflexivity.
    + discriminate.
  - vm_compute in Hbefore. discriminate.
Defined.

(** * Further properties of the code *)

(** ** Clearing the cache *)

Lemma glob_lists (w : world) : CacheSweep.lists (CacheSweep.glob w) w.
Proof.
  unfold CacheSweep.lists, CacheSweep.glob. split.
  - apply NoDup_fst_map_to_list.
  - intros k. split.
    + intros Hk. apply list_elem_of_In, in_map_iff in Hk as ([k' f] & <- & Hin).
      apply list_elem_of_In, elem_of_map_to_list in Hin. eauto.
    + intros [f Hf]. apply list_elem_of_In, in_map_iff. exists (k, f).
      split; [reflexivity|]. apply list_elem_of_In, elem_of_map_to_list, Hf.
Qed.

(** A listing is as long as the directory is large. *)
Lemma listing_length (listing : list string) (w : world) :
  CacheSweep.lists listing w -> length listing = size (files w).
Proof.
  intros [Hnd Hk].
  assert (Hp : Permutation listing (elements (dom (files w)))).
  { apply NoDup_Permutation; [exact Hnd|apply NoDup_elements|].
    intros k. rewrite elem_of_elements, elem_of_dom. apply Hk. }
  rewrite (Permutation_length Hp), <- size_dom. reflexivity.
Qed.

Lemma clear_each_removes (listing : list string) :
  forall (count : Z) (w : world),
    NoDup listing ->
    (forall k, k ∈ listing -> is_Some (files w !! k)) ->
    exists m,
      CacheSweep.clear_each listing count w =
        (Ok (count + Z.of_nat (length listing)), with_files m w)
      /\ forall k, m !! k = if decide (k ∈ listing) then None else files w !! k.
Proof.
  induction listing as [|c rest IH]; intros count w Hnd Hall.
  - exists (files w). split.
    + simpl. unfold ret. rewrite Z.add_0_r. destruct w; reflexivity.
    + intros k. destruct (decide (k ∈ [])) as [Hin|_]; [|reflexivity].
      apply elem_of_nil in Hin. contradiction.
  - apply NoDup_cons in Hnd as [Hc Hnd].
    destruct (Hall c) as [f Hf]; [left|].
    destruct (IH (count + 1) (with_files (delete c (files w)) w) Hnd)
      as (m & Hrun & Hm).
    { intros k Hk. cbn [with_files files].
      rewrite lookup_delete_ne by (intros ->; contradiction).
      apply Hall. right. exact Hk. }
    exists m. split.
    + cbn [CacheSweep.clear_each]. unfold bind at 1.
      unfold CacheSweep.remove at 1. rewrite Hf. rewrite Hrun.
      f_equal. f_equal. cbn [length]. lia.
    + intros k. rewrite Hm. cbn [with_files files].
      destruct (decide (k ∈ rest)) as [Hr|Hr].
      * rewrite decide_True by (right; exact Hr). reflexivity.
      * destruct (decide (k = c)) as [->|Hne].
        -- rewrite decide_True by left. apply lookup_delete_eq.
        -- rewrite decide_False by (rewrite elem_of_cons; tauto).
           apply lookup_delete_ne. congruence.
Qed.

(** X1. Clearing the cache removes every cache file and returns how many
    there were, whatever the order of the listing; afterwards every lookup
    misses without reading the clock.  An orchestrator that runs without a
    cache returns 0 and leaves the directory alone. *)
Theorem clear_cache_empties (E : Env) (orc : Orchestrator)
    (listing : list string) (w : world) :
  CacheSweep.lists listing w ->
  match orch_cache orc with
  | Some c =>
      CacheCommands.clear_cache orc listing w =
        (Ok (Z.of_nat (size (files w))), with_files ∅ w)
      /\ forall args kwargs,
           Cache.get E c args kwargs (with_files ∅ w) = (Ok JNull, with_files ∅ w)
  | None => CacheCommands.clear_cache orc listing w = (Ok 0, w)
  end.
Proof.
  intros Hl. unfold CacheCommands.clear_cache.
  destruct (orch_cache orc) as [c|]; [|reflexivity].
  split.
  - destruct Hl as [Hnd Hk].
    destruct (clear_each_removes listing 0 w Hnd) as (m & Hrun & Hm).
    { intros k Hin. apply Hk, Hin. }
    unfold CacheSweep.clear. rewrite Hrun.
    rewrite (listing_length listing w (conj Hnd Hk)), Z.add_0_l.
    do 2 f_equal. apply map_eq. intros k. rewrite Hm, lookup_empty.
    destruct (decide (k ∈ listing)) as [_|Hout]; [reflexivity|].
    destruct (files w !! k) eqn:Hf; [|reflexivity].
    exfalso. apply Hout, Hk. eauto.
  - intros args kwargs. unfold Cache.get, bind, read_file.
    cbn [with_files files]. rewrite lookup_empty. reflexivity.
Qed.

Lemma clear_cache_empties_witness :
  CacheCommands.clear_cache (MultiAgentOrchestrator.new default_settings)
    (CacheSweep.glob Stock.shelf) Stock.shelf =
    (Ok (Z.of_nat (size (files Stock.shelf))), with_files ∅ Stock.shelf)
  /\ forall args kwargs,
       Cache.get Stock.env Cache.new args kwargs (with_files ∅ Stock.shelf) =
         (Ok JNull, with_files ∅ Stock.shelf).
Proof.
  apply (clear_cache_empties Stock.env (MultiAgentOrchestrator.new default_settings)
           (CacheSweep.glob Stock.shelf) Stock.shelf).
  apply glob_lists.
Defined.

(** ** Sweeping expired entries *)

Section Sweeping.
Context (E : Env).

(** One file of the sweep: it is removed or left as it is, the clock is
    read at most once, and the verdict is the removal when the file is
    unparseable or expired at the earliest time the clock can show, the
    file untouched when it is live at the latest. *)
Lemma sweep_one_outcome (self : Cache) (k : string) (w : world) (f : file)
    (lo hi : Z) :
  files w !! k = Some f ->
  f <> NotRecord ->
  (forall i, (clock_reads w <= i)%nat -> lo <= clock E i <= hi) ->
  exists (removed : bool) (w' : world),
    CacheSweep.sweep_one E self k w = (Ok removed, w')
    /\ files w' = (if removed then delete k (files w) else files w)
    /\ (clock_reads w <= clock_reads w')%nat
    /\ (Sweep.unparseable f || Sweep.expired_at self lo f = true -> removed = true)
    /\ (Sweep.live_at self hi f = true -> removed = false).
Proof.
  intros Hf Hrec Hclock.
  unfold CacheSweep.sweep_one, bind, read_file. rewrite Hf.
  destruct f as [| |[| |t] v]; try contradiction.
  - unfold CacheSweep.remove. rewrite Hf.
    exists true. eexists.
    repeat split; try reflexivity; try discriminate; cbn [clock_reads with_files]; lia.
  - unfold CacheSweep.remove. rewrite Hf.
    exists true. eexists.
    repeat split; try reflexivity; try discriminate; cbn [clock_reads with_files]; lia.
  - unfold CacheSweep.remove. rewrite Hf.
    exists true. eexists.
    repeat split; try reflexivity; try discriminate; cbn [clock_reads with_files]; lia.
  - unfold datetime_now.
    pose proof (Hclock (clock_reads w) (Nat.le_refl _)) as Hnow.
    destruct (Cache.ttl self <? clock E (clock_reads w) - t) eqn:Hexp.
    + unfold CacheSweep.remove. cbn [files]. rewrite Hf.
      exists true. eexists. repeat split; try reflexivity.
      * cbn [clock_reads with_files]. lia.
      * cbn [Sweep.live_at]. intros Hlive.
        apply negb_true_iff, Z.ltb_ge in Hlive. apply Z.ltb_lt in Hexp. lia.
    + exists false. eexists. repeat split; try reflexivity.
      * cbn [clock_reads]. lia.
      * cbn [Sweep.unparseable Sweep.expired_at orb]. intros Hdead.
        apply Z.ltb_lt in Hdead. apply Z.ltb_ge in Hexp. lia.
Qed.

Lemma sweep_each_outcome (self : Cache) (lo hi : Z) (listing : list string) :
  forall (count : Z) (w : world),
    NoDup listing ->
    (forall k, k ∈ listing ->
       exists f, files w !! k = Some f /\ f <> NotRecord) ->
    (forall i, (clock_reads w <= i)%nat -> lo <= clock E i <= hi) ->
    exists (count' : Z) (w' : world),
      CacheSweep.sweep_each E self listing count w = (Ok count', w')
      /\ (forall k, k ∉ listing -> files w' !! k = files w !! k)
      /\ (forall k f, k ∈ listing -> files w !! k = Some f ->
            Sweep.unparseable f || Sweep.expired_at self lo f = true ->
            files w' !! k = None)
      /\ (forall k f, k ∈ listing -> files w !! k = Some f ->
            Sweep.live_at self hi f = true -> files w' !! k = Some f)
      /\ count' - count = Z.of_nat (size (files w)) - Z.of_nat (size (files w'))
      /\ 0 <= count' - count.
Proof.
  induction listing as [|c rest IH]; intros count w Hnd Hall Hclock.
  - exists count, w. repeat split; try reflexivity; try lia.
    + intros k f Hin. apply elem_of_nil in Hin. contradiction.
    + intros k f Hin. apply elem_of_nil in Hin. contradiction.
  - apply NoDup_cons in Hnd as [Hc Hnd].
    destruct (Hall c) as (f & Hf & Hrec); [left|].
    destruct (sweep_one_outcome self c w f lo hi Hf Hrec Hclock)
      as (removed & w1 & Hone & Hfiles & Hreads & Hdead & Hlive).
    assert (Hrest : forall k, k ∈ rest -> files w1 !! k = files w !! k).
    { intros k Hk. rewrite Hfiles. destruct removed; [|reflexivity].
      apply lookup_delete_ne. intros ->. contradiction. }
    destruct (IH (if removed then count + 1 else count) w1 Hnd)
      as (count' & w' & Hrun & Hout & Hgone & Hkept & Hcount & Hpos).
    { intros k Hk. rewrite (Hrest k Hk). apply Hall. right. exact Hk. }
    { intros i Hi. apply Hclock. lia. }
    exists count', w'. split.
    { cbn [CacheSweep.sweep_each]. unfold bind at 1. rewrite Hone. exact Hrun. }
    assert (Hhead : files w' !! c = if removed then None else Some f).
    { rewrite (Hout c Hc), Hfiles. destruct removed.
      - apply lookup_delete_eq.
      - exact Hf. }
    assert (Hsize : Z.of_nat (size (files w)) - Z.of_nat (size (files w1)) =
                    if removed then 1 else 0).
    { rewrite Hfiles. destruct removed; [|lia].
      rewrite map_size_delete_Some by eauto.
      assert (size (files w) <> 0%nat).
      { apply map_size_non_empty_iff. intros Hemp.
        rewrite Hemp, lookup_empty in Hf. discriminate. }
      lia. }
    repeat split.
    + intros k Hk. rewrite not_elem_of_cons in Hk. destruct Hk as [Hne Hk].
      rewrite (Hout k Hk), Hfiles. destruct removed; [|reflexivity].
      apply lookup_delete_ne. congruence.
    + intros k g Hin Hg Hd. apply elem_of_cons in Hin as [->|Hin].
      * rewrite Hhead. rewrite Hf in Hg. injection Hg as <-.
        rewrite (Hdead Hd). reflexivity.
      * apply (Hgone k g Hin); [rewrite (Hrest k Hin); exact Hg|exact Hd].
    + intros k g Hin Hg Hl. apply elem_of_cons in Hin as [->|Hin].
      * rewrite Hhead. rewrite Hf in Hg. injection Hg as <-.
        rewrite (Hlive Hl). reflexivity.
      * apply (Hkept k g Hin); [rewrite (Hrest k Hin); exact Hg|exact Hl].
    + destruct removed; lia.
    + destruct removed; lia.
Qed.

(** X2. A sweep over a listing of the directory in which every file is a
    JSON object (or not JSON at all) returns, whatever the order of the
    listing: it removes every file that is not JSON or has no usable
    timestamp, and every entry that is older than the time-to-live at the
    earliest time the clock shows during the sweep; it leaves as it is every
    entry that is no older than the time-to-live at the latest time the
    clock shows; and the number it returns is the number of files that are
    gone. *)
Theorem clear_expired_sweeps (self : Cache) (listing : list string)
    (w : world) (lo hi : Z) :
  CacheSweep.lists listing w ->
  (forall k, files w !! k <> Some NotRecord) ->
  (forall i, (clock_reads w <= i)%nat -> lo <= clock E i <= hi) ->
  exists (count : Z) (w' : world),
    CacheSweep.clear_expired E self listing w = (Ok count, w')
    /\ (forall k f, files w !! k = Some f ->
          Sweep.unparseable f || Sweep.expired_at self lo f = true ->
          files w' !! k = None)
    /\ (forall k f, files w !! k = Some f ->
          Sweep.live_at self hi f = true -> files w' !! k = Some f)
    /\ count = Z.of_nat (size (files w)) - Z.of_nat (size (files w')).
Proof.
  intros [Hnd Hk] Hrec Hclock.
  destruct (sweep_each_outcome self lo hi listing 0 w Hnd) as
    (count & w' & Hrun & _ & Hgone & Hkept & Hcount & _).
  - intros k Hin. apply Hk in Hin as [f Hf]. exists f. split; [exact Hf|].
    intros ->. exact (Hrec k Hf).
  - exact Hclock.
  - exists count, w'. split; [exact Hrun|]. repeat split.
    + intros k f Hf. apply (Hgone k f); [apply Hk; eauto|exact Hf].
    + intros k f Hf. apply (Hkept k f); [apply Hk; eauto|exact Hf].
    + lia.
Qed.

(** X3. A sweep that comes upon a file holding JSON that is not a cache
    document (a list, say, or an object whose timestamp is a number) stops
    there with a TypeError: the files listed before it have been dealt
    with, that file and the ones listed after it are left as they are. *)
Theorem clear_expired_stops_at_foreign_json (self : Cache)
    (before after : list string) (k : string) (w w1 : world) (count : Z) :
  CacheSweep.clear_expired E self before w = (Ok count, w1) ->
  files w1 !! k = Some NotRecord ->
  CacheSweep.clear_expired E self (app before (k :: after)) w =
    (Raise TypeError, w1).
Proof.
  unfold CacheSweep.clear_expired. generalize 0 as start.
  revert w. induction before as [|c rest IH]; intros w start Hrun Hk.
  - injection Hrun as <- <-. cbn [app CacheSweep.sweep_each].
    unfold bind, CacheSweep.sweep_one, bind, read_file. rewrite Hk. reflexivity.
  - cbn [app CacheSweep.sweep_each] in *. unfold bind at 1 in Hrun.
    unfold bind at 1.
    destruct (CacheSweep.sweep_one E self c w) as [[removed|e] w0];
      [|discriminate].
    apply (IH w0 _ Hrun Hk).
Qed.
End Sweeping.

(** No file of the shelf is foreign JSON. *)
Lemma shelf_documents (k : string) : files Stock.shelf !! k <> Some NotRecord.
Proof.
  intros Hk. apply elem_of_map_to_list in Hk. vm_compute in Hk.
  repeat (apply elem_of_cons in Hk as [Hk|Hk]; [discriminate|]).
  apply elem_of_nil in Hk. exact Hk.
Qed.

Lemma clear_expired_sweeps_witness :
  exists (count : Z) (w' : world),
    CacheSweep.clear_expired Stock.env Cache.new (CacheSweep.glob Stock.shelf)
      Stock.shelf = (Ok count, w')
    /\ (forall k f, files Stock.shelf !! k = Some f ->
          Sweep.unparseable f || Sweep.expired_at Cache.new 1000 f = true ->
          files w' !! k = None)
    /\ (forall k f, files Stock.shelf !! k = Some f ->
          Sweep.live_at Cache.new 1000 f = true -> files w' !! k = Some f)
    /\ count = Z.of_nat (size (files Stock.shelf)) - Z.of_nat (size (files w')).
Proof.
  apply (clear_expired_sweeps Stock.env Cache.new (CacheSweep.glob Stock.shelf)
           Stock.shelf 1000 1000).
  - apply glob_lists.
  - apply shelf_documents.
  - intros i _. vm_compute. split; discriminate.
Defined.

Lemma clear_expired_stops_at_foreign_json_witness :
  CacheSweep.clear_expired Stock.env Cache.new ["junk"; "foreign"; "old"]
    Stock.shelf_with_list =
  (Raise TypeError,
   with_files (delete "junk" (files Stock.shelf_with_list)) Stock.shelf_with_list).
Proof.
  apply (clear_expired_stops_at_foreign_json Stock.env Cache.new ["junk"] ["old"]
           "foreign" Stock.shelf_with_list _ 1).
  - vm_compute. reflexivity.
  - vm_compute. reflexivity.
Defined.

Example sweep_of_the_shelf :
  let run := CacheSweep.clear_expired Stock.env Cache.new
               (CacheSweep.glob Stock.shelf) Stock.shelf in
  fst run = Ok 3
  /\ map fst (map_to_list (files (snd run))) = ["live"].
Proof. vm_compute. split; reflexivity. Qed.

(** ** More on the retry loop *)

Section RetryOutcomes.
Context (E : Env) (cfg : Settings).

Lemma after_no_attempt (w : world) : after_attempts w 0 [] = w.
Proof.
  destruct w. unfold after_attempts. cbn [files clock_reads api_calls disk_writes events].
  rewrite Nat.add_0_r, app_nil_r. reflexivity.
Qed.

Lemma retry_loop_until_decided (self : BaseAgent) (req : request)
    (max_retries : Z) (out : api_outcome) (k : nat) :
  forall (remaining : nat) (attempt : Z) (last : option exn) (w : world),
    (k < remaining)%nat ->
    attempt + Z.of_nat remaining = max_retries ->
    0 <= attempt ->
    0 <= RETRY_DELAY cfg ->
    (forall j, (j < k)%nat ->
       api E (api_calls w + j) req = ApiRaise RateLimitError) ->
    api E (api_calls w + k) req = out ->
    out <> ApiRaise RateLimitError ->
    BaseAgent.retry_loop E cfg self req max_retries remaining attempt last w =
      (outcome_result out,
       after_attempts w (S k) (exhausted_log cfg req attempt k)).
Proof.
  induction k as [|k IH]; intros remaining attempt last w Hk Hmax Ha Hd Hlim Hout Hne;
    (destruct remaining as [|r]; [lia|]); rewrite retry_loop_step;
    unfold messages_create.
  - rewrite Nat.add_0_r in Hout. rewrite Hout.
    unfold after_attempts. rewrite Nat.add_1_r. cbn [exhausted_log].
    destruct out as [text i o|e]; [reflexivity|].
    destruct e; try reflexivity. contradiction.
  - pose proof (Hlim 0%nat (Nat.lt_0_succ _)) as H0.
    rewrite Nat.add_0_r in H0. rewrite H0.
    replace (attempt <? max_retries - 1) with true
      by (symmetry; apply Z.ltb_lt; lia).
    unfold bind, sleep.
    replace (RETRY_DELAY cfg * (attempt + 1) <? 0) with false
      by (symmetry; apply Z.ltb_ge; nia).
    rewrite (IH r (attempt + 1) (Some RateLimitError)); try lia.
    + unfold after_attempts.
      cbn [files clock_reads api_calls disk_writes events exhausted_log].
      f_equal. f_equal.
      * lia.
      * rewrite <- !app_assoc. reflexivity.
    + intros j Hj. cbn [api_calls].
      replace (S (api_calls w) + j)%nat with (api_calls w + S j)%nat by lia.
      apply Hlim. lia.
    + cbn [api_calls].
      replace (S (api_calls w) + k)%nat with (api_calls w + S k)%nat by lia.
      exact Hout.
    + exact Hne.
Qed.

(** X4. When the service answers the first [k] attempts with the rate limit
    and the next one with a message or with another error, and [k + 1]
    attempts are allowed, the retry loop returns that message, or raises
    that error, after [k + 1] calls with the same request and a sleep of the
    base delay times 1, 2, ..., [k] between them. *)
Theorem retry_until_decided (self : BaseAgent) (prompt : string)
    (max_retries : option Z) (kwargs : list (string * json)) (w : world)
    (k : nat) (out : api_outcome) :
  let req := BaseAgent.api_request self prompt kwargs in
  Z.of_nat k < BaseAgent.resolve_max_retries cfg max_retries ->
  0 <= RETRY_DELAY cfg ->
  (forall j, (j < k)%nat ->
     api E (api_calls w + j) req = ApiRaise RateLimitError) ->
  api E (api_calls w + k) req = out ->
  out <> ApiRaise RateLimitError ->
  BaseAgent._call_api_with_retry E cfg self prompt max_retries kwargs w =
    (outcome_result out, after_attempts w (S k) (exhausted_log cfg req 0 k)).
Proof.
  intros req Hk Hd Hlim Hout Hne. unfold BaseAgent._call_api_with_retry.
  apply retry_loop_until_decided; try assumption; lia.
Qed.

Lemma retry_loop_bounded (self : BaseAgent) (req : request) (max_retries : Z)
    (remaining : nat) :
  forall (attempt : Z) (last : option exn) (w : world),
    exists (calls : nat) (log : list event),
      snd (BaseAgent.retry_loop E cfg self req max_retries remaining attempt last w)
        = after_attempts w calls log
      /\ (calls <= remaining)%nat
      /\ calls_in log = calls
      /\ (forall ev, ev ∈ log -> ev = Called req \/ exists d, ev = Slept d)
      /\ (forall r, fst (BaseAgent.retry_loop E cfg self req max_retries
                          remaining attempt last w) = Ok r -> (1 <= calls)%nat).
Proof.
  induction remaining as [|n IH]; intros attempt last w.
  - exists 0%nat, []. cbn [BaseAgent.retry_loop].
    split; [destruct last; cbn; symmetry; apply after_no_attempt|].
    split; [lia|]. split; [reflexivity|]. split.
    + intros ev Hev. apply elem_of_nil in Hev. contradiction.
    + intros r. destruct last; discriminate.
  - rewrite retry_loop_step. unfold messages_create.
    set (w1 := {| files := files w; clock_reads := clock_reads w;
                  api_calls := S (api_calls w); disk_writes := disk_writes w;
                  events := events w ++ [Called req] |}).
    assert (Hone : w1 = after_attempts w 1 [Called req]).
    { unfold w1, after_attempts. rewrite Nat.add_1_r. reflexivity. }
    assert (Hstop : exists (calls : nat) (log : list event),
               w1 = after_attempts w calls log /\ (calls <= S n)%nat
               /\ calls_in log = calls
               /\ (forall ev, ev ∈ log -> ev = Called req \/ exists d, ev = Slept d)
               /\ (1 <= calls)%nat).
    { exists 1%nat, [Called req]. split; [exact Hone|]. split; [lia|].
      split; [reflexivity|]. split; [|lia].
      intros ev Hev. apply list_elem_of_singleton in Hev. left. exact Hev. }
    destruct (api E (api_calls w) req) as [text i o|e].
    { destruct Hstop as (calls & log & H1 & H2 & H3 & H4 & H5).
      exists calls, log. cbn [fst snd]. auto. }
    assert (Hraise : forall e',
              exists (calls : nat) (log : list event),
                snd (Raise e' : result (string * Z * Z), w1) = after_attempts w calls log
                /\ (calls <= S n)%nat /\ calls_in log = calls
                /\ (forall ev, ev ∈ log -> ev = Called req \/ exists d, ev = Slept d)
                /\ (forall r, fst (Raise e' : result (string * Z * Z), w1) = Ok r ->
                      (1 <= calls)%nat)).
    { intros e'. destruct Hstop as (calls & log & H1 & H2 & H3 & H4 & H5).
      exists calls, log. cbn [fst snd]. repeat split; auto. }
    destruct e; try apply Hraise.
    destruct (attempt <? max_retries - 1); [|apply Hraise].
    unfold bind, sleep.
    destruct (RETRY_DELAY cfg * (attempt + 1) <? 0); [apply Hraise|].
    set (w2 := {| files := files w1; clock_reads := clock_reads w1;
                  api_calls := api_calls w1; disk_writes := disk_writes w1;
                  events := events w1 ++ [Slept (RETRY_DELAY cfg * (attempt + 1))] |}).
    destruct (IH (attempt + 1) (Some RateLimitError) w2)
      as (calls & log & Hw & Hle & Hcalls & Hlog & Hok).
    exists (S calls), (Called req :: Slept (RETRY_DELAY cfg * (attempt + 1)) :: log).
    split.
    { rewrite Hw. unfold after_attempts, w2, w1.
      cbn [files clock_reads api_calls disk_writes events].
      f_equal; [lia|]. rewrite <- !app_assoc. reflexivity. }
    split; [lia|]. split.
    { unfold calls_in in *. cbn [List.filter length]. rewrite Hcalls. reflexivity. }
    split.
    { intros ev Hev. apply elem_of_cons in Hev as [->|Hev]; [left; reflexivity|].
      apply elem_of_cons in Hev as [->|Hev]; [right; eauto|]. apply Hlog, Hev. }
    intros r _. lia.
Qed.

(** X5. Whatever the service does, one run of the retry loop calls it at
    most as many times as attempts are allowed, always with the same
    request, logs nothing but those calls and its own sleeps, reads no clock
    and touches no cache file; when it returns a message it has called the
    service at least once. *)
Theorem retry_attempts_bounded (self : BaseAgent) (prompt : string)
    (max_retries : option Z) (kwargs : list (string * json)) (w : world) :
  let req := BaseAgent.api_request self prompt kwargs in
  let run := BaseAgent._call_api_with_retry E cfg self prompt max_retries kwargs w in
  exists (calls : nat) (log : list event),
    snd run = after_attempts w calls log
    /\ Z.of_nat calls <= Z.max 0 (BaseAgent.resolve_max_retries cfg max_retries)
    /\ calls_in log = calls
    /\ (forall ev, ev ∈ log -> ev = Called req \/ exists d, ev = Slept d)
    /\ (forall r, fst run = Ok r -> (1 <= calls)%nat).
Proof.
  intros req run. unfold run, BaseAgent._call_api_with_retry.
  destruct (retry_loop_bounded self req
              (BaseAgent.resolve_max_retries cfg max_retries)
              (Z.to_nat (BaseAgent.resolve_max_retries cfg max_retries)) 0 None w)
    as (calls & log & Hw & Hle & Hcalls & Hlog & Hok).
  exists calls, log. repeat split; auto. lia.
Qed.

(** X6. With a number of attempts that is not positive (a negative
    [max_retries], or none given and MAX_RETRIES set to 0 or less), the loop
    body never runs: the service is not called and a RuntimeError naming the
    agent is raised. *)
Theorem no_attempt_allowed (self : BaseAgent) (prompt : string)
    (max_retries : option Z) (kwargs : list (string * json)) (w : world) :
  BaseAgent.resolve_max_retries cfg max_retries <= 0 ->
  BaseAgent._call_api_with_retry E cfg self prompt max_retries kwargs w =
    (Raise (RuntimeError (name self ++ ": Failed to get API response")), w).
Proof.
  intros Hmax. unfold BaseAgent._call_api_with_retry.
  replace (Z.to_nat (BaseAgent.resolve_max_retries cfg max_retries)) with 0%nat
    by lia.
  reflexivity.
Qed.

(** X7. With a negative base delay and more than one attempt allowed, a
    first attempt answered with the rate limit ends the loop with the
    ValueError of [sleep]: one call has been made, nothing was slept and the
    rate-limit error is not what the caller sees. *)
Theorem negative_delay_breaks_backoff (self : BaseAgent) (prompt : string)
    (max_retries : option Z) (kwargs : list (string * json)) (w : world) :
  let req := BaseAgent.api_request self prompt kwargs in
  RETRY_DELAY cfg < 0 ->
  1 < BaseAgent.resolve_max_retries cfg max_retries ->
  api E (api_calls w) req = ApiRaise RateLimitError ->
  BaseAgent._call_api_with_retry E cfg self prompt max_retries kwargs w =
    (Raise ValueError, after_attempts w 1 [Called req]).
Proof.
  intros req Hd Hmax Hapi. unfold BaseAgent._call_api_with_retry.
  destruct (Z.to_nat (BaseAgent.resolve_max_retries cfg max_retries)) as [|n] eqn:Hn;
    [lia|].
  rewrite retry_loop_step. unfold messages_create. fold req. rewrite Hapi.
  replace (0 <? BaseAgent.resolve_max_retries cfg max_retries - 1) with true
    by (symmetry; apply Z.ltb_lt; lia).
  unfold bind, sleep.
  replace (RETRY_DELAY cfg * (0 + 1) <? 0) with true
    by (symmetry; apply Z.ltb_lt; lia).
  unfold after_attempts. rewrite Nat.add_1_r. reflexivity.
Qed.
End RetryOutcomes.

Lemma retry_until_decided_witness :
  let E := Sample.env Sample.frozen Service.third_time_lucky Sample.sound_disk in
  let agent := LeadAgent.new default_settings Sample.templates None in
  let req := BaseAgent.api_request agent "prompt" [] in
  BaseAgent._call_api_with_retry E default_settings agent "prompt" None []
    Sample.fresh =
  (Ok ("{}", 100, 50),
   {| files := ∅; clock_reads := 0; api_calls := 3; disk_writes := 0;
      events := [Called req; Slept 2; Called req; Slept 4; Called req] |}).
Proof.
  intros E agent req.
  apply (retry_until_decided E default_settings agent "prompt" None []
           Sample.fresh 2 (ApiMessage "{}" 100 50)).
  - simpl. lia.
  - simpl. lia.
  - intros j Hj. destruct j as [|[|j]]; [reflexivity|reflexivity|lia].
  - reflexivity.
  - discriminate.
Defined.

Lemma no_attempt_allowed_witness :
  let E := Sample.env Sample.frozen Service.busy Sample.sound_disk in
  let cfg := Service.retrying 0 2 in
  let agent := LeadAgent.new cfg Sample.templates None in
  BaseAgent._call_api_with_retry E cfg agent "prompt" None [] Sample.fresh =
  (Raise (RuntimeError "LeadDocumentLocator: Failed to get API response"),
   Sample.fresh).
Proof.
  intros E cfg agent.
  apply (no_attempt_allowed E cfg agent "prompt" None [] Sample.fresh).
  simpl. lia.
Defined.

Lemma negative_delay_breaks_backoff_witness :
  let E := Sample.env Sample.frozen Service.busy Sample.sound_disk in
  let cfg := Service.retrying 3 (-1) in
  let agent := LeadAgent.new cfg Sample.templates None in
  BaseAgent._call_api_with_retry E cfg agent "prompt" None [] Sample.fresh =
  (Raise ValueError,
   {| files := ∅; clock_reads := 0; api_calls := 1; disk_writes := 0;
      events := [Called (BaseAgent.api_request agent "prompt" [])] |}).
Proof.
  intros E cfg agent.
  apply (negative_delay_breaks_backoff E cfg agent "prompt" None [] Sample.fresh).
  - simpl. lia.
  - simpl. lia.
  - reflexivity.
Defined.

(** ** More on invocation *)

Section InvocationEffects.
Context (E : Env) (cfg : Settings).

(** The retry loop leaves the world as it was but for its calls and sleeps. *)
Lemma call_effects (self : BaseAgent) (prompt : string)
    (max_retries : option Z) (kwargs : list (string * json)) (w : world) :
  exists (calls : nat) (log : list event),
    snd (BaseAgent._call_api_with_retry E cfg self prompt max_retries kwargs w) =
      after_attempts w calls log.
Proof.
  unfold BaseAgent._call_api_with_retry.
  destruct (retry_loop_bounded E cfg self
              (BaseAgent.api_request self prompt kwargs)
              (BaseAgent.resolve_max_retries cfg max_retries)
              (Z.to_nat (BaseAgent.resolve_max_retries cfg max_retries)) 0 None w)
    as (calls & log & Hw & _).
  eauto.
Qed.

(** A lookup leaves the files of other fingerprints alone. *)
Lemma get_other_files (c : Cache) (args : list json)
    (kwargs : list (string * json)) (w : world) (k : string) :
  k <> Cache._get_cache_key E args kwargs ->
  files (snd (Cache.get E c args kwargs w)) !! k = files w !! k.
Proof.
  intros Hk. unfold Cache.get, bind, read_file.
  destruct (files w !! Cache._get_cache_key E args kwargs)
    as [[| |[| |t] v]|]; try reflexivity.
  unfold datetime_now.
  destruct (Cache.ttl c <? clock E (clock_reads w) - t).
  - cbn. apply lookup_delete_ne. congruence.
  - destruct v; reflexivity.
Qed.

(** A store leaves the files of other fingerprints alone. *)
Lemma set_other_files (c : Cache) (value : json) (args : list json)
    (kwargs : list (string * json)) (w : world) (k : string) :
  k <> Cache._get_cache_key E args kwargs ->
  files (snd (Cache.set E c value args kwargs w)) !! k = files w !! k.
Proof.
  intros Hk. unfold Cache.set, bind, datetime_now, write_file.
  cbn [disk_writes files clock_reads api_calls events].
  destruct (disk E (disk_writes w)); cbn [snd files]; try reflexivity;
    apply lookup_insert_ne; congruence.
Qed.

Lemma call_and_store_other_files (self : BaseAgent) (prompt context : string)
    (use_cache : bool) (max_retries : option Z)
    (kwargs : list (string * json)) (w : world) (k : string) :
  k <> Cache._get_cache_key E [] (BaseAgent.key_parts self prompt context) ->
  files (snd (BaseAgent.call_and_store E cfg self prompt context use_cache
                max_retries kwargs w)) !! k = files w !! k.
Proof.
  intros Hk. unfold BaseAgent.call_and_store. unfold bind at 1.
  destruct (call_effects self (BaseAgent._build_prompt self prompt context)
              max_retries kwargs w) as (calls & log & Hw).
  destruct (BaseAgent._call_api_with_retry E cfg self
              (BaseAgent._build_prompt self prompt context) max_retries kwargs w)
    as [[[[text i] o]|e] w1]; cbn [snd] in Hw; subst w1; [|reflexivity].
  destruct (BaseAgent.caching cfg self use_cache) as [c|]; [|reflexivity].
  unfold bind.
  pose proof (set_other_files c
                (JDict [("text", JStr text); ("input_tokens", JInt i);
                        ("output_tokens", JInt o)]) []
                (BaseAgent.key_parts self prompt context)
                (after_attempts w calls log) k Hk) as Hset.
  destruct (Cache.set E c _ [] (BaseAgent.key_parts self prompt context)
              (after_attempts w calls log)) as [[[]|e] w2];
    cbn [snd] in *; exact Hset.
Qed.

(** X8. An invocation that does not use the cache (the caller says so, as
    the synthesis stage does, or the agent has none, or caching is switched
    off) is the retry loop and nothing else: its result is the loop's, no
    cache file is read, written or removed and the clock is not read. *)
Theorem invoke_without_cache (self : BaseAgent) (prompt context : string)
    (use_cache : bool) (max_retries : option Z)
    (kwargs : list (string * json)) (w : world) :
  use_cache = false \/ cache self = None \/ ENABLE_CACHING cfg = false ->
  let call := BaseAgent._call_api_with_retry E cfg self
                (BaseAgent._build_prompt self prompt context) max_retries kwargs w in
  let run := BaseAgent.invoke E cfg self prompt context use_cache max_retries
               kwargs w in
  snd run = snd call
  /\ fst run = match fst call with
               | Ok (text, i, o) => Ok (JStr text, i, o)
               | Raise e => Raise e
               end
  /\ files (snd run) = files w
  /\ clock_reads (snd run) = clock_reads w
  /\ disk_writes (snd run) = disk_writes w.
Proof.
  intros Hoff call run.
  assert (Hnone : BaseAgent.caching cfg self use_cache = None).
  { unfold BaseAgent.caching.
    destruct use_cache; [|reflexivity].
    destruct (cache self); [|reflexivity].
    destruct (ENABLE_CACHING cfg); [|reflexivity].
    destruct Hoff as [H|[H|H]]; discriminate. }
  destruct (call_effects self (BaseAgent._build_prompt self prompt context)
              max_retries kwargs w) as (calls & log & Hw).
  fold call in Hw.
  assert (Hrun : run = match call with
                       | (Ok (text, i, o), w') => (Ok (JStr text, i, o), w')
                       | (Raise e, w') => (Raise e, w')
                       end).
  { unfold run, BaseAgent.invoke. rewrite Hnone.
    unfold BaseAgent.call_and_store. rewrite Hnone. unfold bind. fold call.
    destruct call as [[[[text i] o]|e] w']; reflexivity. }
  rewrite Hrun. destruct call as [[[[text i] o]|e] w']; cbn [fst snd] in *;
    subst w'; repeat split.
Qed.

(** X9. Whatever happens, an invocation touches no cache file but the one of
    its own fingerprint. *)
Theorem invoke_keeps_other_files (self : BaseAgent) (prompt context : string)
    (use_cache : bool) (max_retries : option Z)
    (kwargs : list (string * json)) (w : world) (k : string) :
  k <> Cache._get_cache_key E [] (BaseAgent.key_parts self prompt context) ->
  files (snd (BaseAgent.invoke E cfg self prompt context use_cache max_retries
                kwargs w)) !! k = files w !! k.
Proof.
  intros Hk. unfold BaseAgent.invoke.
  destruct (BaseAgent.caching cfg self use_cache) as [c|] eqn:Hc;
    [|apply call_and_store_other_files, Hk].
  unfold bind at 1.
  pose proof (get_other_files c [] (BaseAgent.key_parts self prompt context) w k Hk)
    as Hget.
  destruct (Cache.get E c [] (BaseAgent.key_parts self prompt context) w)
    as [[d|e] w0]; cbn [snd] in Hget; [|exact Hget].
  destruct (truthy d).
  - unfold bind, lift_result, ret.
    destruct (getitem d "text"); exact Hget.
  - rewrite call_and_store_other_files by exact Hk. exact Hget.
Qed.
End InvocationEffects.

Lemma invoke_without_cache_witness :
  let E := Sample.env Sample.frozen (fun _ _ => ApiMessage "report" 7 9)
             Sample.sound_disk in
  let agent := BaseAgent.new default_settings "SynthesisAgent" "role" "synthesis"
                 (Some Cache.new) in
  let call := BaseAgent._call_api_with_retry E default_settings agent
                (BaseAgent._build_prompt agent "p" "c") None [] Stock.shelf in
  let run := BaseAgent.invoke E default_settings agent "p" "c" false None []
               Stock.shelf in
  snd run = snd call
  /\ fst run = match fst call with
               | Ok (text, i, o) => Ok (JStr text, i, o)
               | Raise e => Raise e
               end
  /\ files (snd run) = files Stock.shelf
  /\ clock_reads (snd run) = clock_reads Stock.shelf
  /\ disk_writes (snd run) = disk_writes Stock.shelf.
Proof.
  intros E agent.
  apply (invoke_without_cache E default_settings agent "p" "c" false None []
           Stock.shelf).
  left. reflexivity.
Defined.

Lemma invoke_keeps_other_files_witness :
  let E := Sample.env Sample.frozen (fun _ _ => ApiMessage "{}" 100 50)
             Sample.sound_disk in
  let agent := LeadAgent.new default_settings Sample.templates (Some Cache.new) in
  files (snd (BaseAgent.invoke E default_settings agent "p" "c" true None []
                Stock.shelf)) !! "old" = files Stock.shelf !! "old".
Proof.
  intros E agent.
  apply (invoke_keeps_other_files E default_settings agent "p" "c" true None []
           Stock.shelf "old").
  vm_compute. discriminate.
Defined.

(** ** Entries the cache holds but cannot serve *)

Section CacheEdges.
Context (E : Env) (cfg : Settings).

(** A lookup of an entry with a falsy value, live or not, ends in a miss for
    [invoke]: what it returns is falsy. *)
Lemma get_falsy_entry (c : Cache) (args : list json)
    (kwargs : list (string * json)) (w : world) (t : Z) (d : json) :
  files w !! Cache._get_cache_key E args kwargs = Some (Entry (StampAt t) (Some d)) ->
  truthy d = false ->
  exists d' w',
    Cache.get E c args kwargs w = (Ok d', w') /\ truthy d' = false
    /\ clock_reads w' = S (clock_reads w) /\ api_calls w' = api_calls w
    /\ disk_writes w' = disk_writes w /\ events w' = events w.
Proof.
  intros Hf Hd. unfold Cache.get, bind, read_file. rewrite Hf.
  unfold datetime_now.
  destruct (Cache.ttl c <? clock E (clock_reads w) - t).
  - exists JNull. eexists. repeat split.
  - exists d. eexists. repeat split. exact Hd.
Qed.

(** A first attempt that is answered ends the loop there. *)
Lemma first_attempt_answered (self : BaseAgent) (prompt : string)
    (max_retries : option Z) (kwargs : list (string * json)) (w : world)
    (text : string) (i o : Z) :
  0 < BaseAgent.resolve_max_retries cfg max_retries ->
  api E (api_calls w) (BaseAgent.api_request self prompt kwargs) =
    ApiMessage text i o ->
  BaseAgent._call_api_with_retry E cfg self prompt max_retries kwargs w =
    (Ok (text, i, o),
     after_attempts w 1 [Called (BaseAgent.api_request self prompt kwargs)]).
Proof.
  intros Hmax Hapi. unfold BaseAgent._call_api_with_retry.
  destruct (Z.to_nat (BaseAgent.resolve_max_retries cfg max_retries)) as [|n] eqn:Hn;
    [lia|].
  rewrite retry_loop_step. unfold messages_create. rewrite Hapi.
  unfold after_attempts. rewrite Nat.add_1_r. reflexivity.
Qed.

(** What [call_and_store] does when the first attempt is answered and the
    write works. *)
Lemma call_and_store_answers (self : BaseAgent) (c : Cache)
    (prompt context : string) (use_cache : bool) (max_retries : option Z)
    (kwargs : list (string * json)) (w : world) (text : string) (i o : Z) :
  BaseAgent.caching cfg self use_cache = Some c ->
  0 < BaseAgent.resolve_max_retries cfg max_retries ->
  api E (api_calls w)
    (BaseAgent.api_request self (BaseAgent._build_prompt self prompt context) kwargs)
    = ApiMessage text i o ->
  disk E (disk_writes w) = WriteOk ->
  exists w',
    BaseAgent.call_and_store E cfg self prompt context use_cache max_retries
      kwargs w = (Ok (JStr text, i, o), w')
    /\ api_calls w' = S (api_calls w)
    /\ files w' =
         <[Cache._get_cache_key E [] (BaseAgent.key_parts self prompt context) :=
             Entry (StampAt (clock E (clock_reads w)))
               (Some (JDict [("text", JStr text); ("input_tokens", JInt i);
                             ("output_tokens", JInt o)]))]> (files w).
Proof.
  intros Hc Hmax Hapi Hdisk. unfold BaseAgent.call_and_store. rewrite Hc.
  unfold bind at 1.
  rewrite (first_attempt_answered self _ max_retries kwargs w text i o Hmax Hapi).
  unfold bind at 1.
  rewrite set_stores by exact Hdisk.
  eexists. split; [reflexivity|]. cbn [api_calls files after_attempts].
  split; [lia|reflexivity].
Qed.
(** X10. The cache check is a truth test: an entry whose value is falsy (an
    empty object, an empty string, null, zero) never serves a hit, whatever
    its age.  The invocation reads the clock for the lookup and goes on to
    the service; when the first attempt is answered and the write works, it
    returns the answer with its token counts and the file then holds that
    answer. *)
Theorem falsy_entry_is_a_miss (self : BaseAgent) (c : Cache)
    (prompt context : string) (max_retries : option Z)
    (kwargs : list (string * json)) (w : world) (t : Z) (d : json)
    (text : string) (i o : Z) :
  let key := Cache._get_cache_key E [] (BaseAgent.key_parts self prompt context) in
  BaseAgent.caching cfg self true = Some c ->
  files w !! key = Some (Entry (StampAt t) (Some d)) ->
  truthy d = false ->
  0 < BaseAgent.resolve_max_retries cfg max_retries ->
  api E (api_calls w)
    (BaseAgent.api_request self (BaseAgent._build_prompt self prompt context) kwargs)
    = ApiMessage text i o ->
  disk E (disk_writes w) = WriteOk ->
  exists w',
    BaseAgent.invoke E cfg self prompt context true max_retries kwargs w =
      (Ok (JStr text, i, o), w')
    /\ api_calls w' = S (api_calls w)
    /\ files w' !! key =
         Some (Entry (StampAt (clock E (S (clock_reads w))))
                 (Some (JDict [("text", JStr text); ("input_tokens", JInt i);
                               ("output_tokens", JInt o)]))).
Proof.
  intros key Hc Hf Hd Hmax Hapi Hdisk.
  destruct (get_falsy_entry c [] (BaseAgent.key_parts self prompt context) w t d
              Hf Hd) as (d' & w0 & Hget & Hd' & Hreads & Hcalls & Hwrites & _).
  rewrite (invoke_miss E cfg self c prompt context true max_retries kwargs w w0 d'
             Hc Hget Hd').
  destruct (call_and_store_answers self c prompt context true max_retries kwargs
              w0 text i o Hc Hmax) as (w' & Hrun & Hn & Hfiles).
  - rewrite Hcalls. exact Hapi.
  - rewrite Hwrites. exact Hdisk.
  - exists w'. split; [exact Hrun|]. split; [rewrite Hn, Hcalls; reflexivity|].
    rewrite Hfiles, Hreads. apply lookup_insert_eq.
Qed.

(** X11. A live entry whose value is truthy but is not an object with a
    [text] key cannot be served: the invocation raises the error of the
    subscript (KeyError for an object without the key, TypeError for
    anything else) after reading the clock, without calling the service and
    without touching the file, so that the same invocation fails again for
    as long as the entry lives. *)
Theorem unusable_entry_raises (self : BaseAgent) (c : Cache)
    (prompt context : string) (max_retries : option Z)
    (kwargs : list (string * json)) (w : world) (t : Z) (d : json) (e : exn) :
  let key := Cache._get_cache_key E [] (BaseAgent.key_parts self prompt context) in
  BaseAgent.caching cfg self true = Some c ->
  files w !! key = Some (Entry (StampAt t) (Some d)) ->
  clock E (clock_reads w) - t <= Cache.ttl c ->
  truthy d = true ->
  getitem d "text" = Raise e ->
  BaseAgent.invoke E cfg self prompt context true max_retries kwargs w =
    (Raise e, after_clock_read w).
Proof.
  intros key Hc Hf Hage Hd Htext. unfold BaseAgent.invoke. rewrite Hc.
  unfold bind at 1.
  rewrite (get_live E c d [] (BaseAgent.key_parts self prompt context) w t Hf Hage).
  rewrite Hd. unfold bind, lift_result. rewrite Htext. reflexivity.
Qed.

(** X12. A cache file that holds JSON which is not a cache document makes
    the invocation of its fingerprint raise TypeError at the lookup: the
    service is not called and nothing changes, the file included. *)
Theorem foreign_file_raises (self : BaseAgent) (c : Cache)
    (prompt context : string) (max_retries : option Z)
    (kwargs : list (string * json)) (w : world) :
  BaseAgent.caching cfg self true = Some c ->
  files w !! Cache._get_cache_key E [] (BaseAgent.key_parts self prompt context)
    = Some NotRecord ->
  BaseAgent.invoke E cfg self prompt context true max_retries kwargs w =
    (Raise TypeError, w).
Proof.
  intros Hc Hf. unfold BaseAgent.invoke. rewrite Hc.
  unfold bind, Cache.get, bind, read_file. rewrite Hf. reflexivity.
Qed.

(** X13. An entry older than the time-to-live is replaced: the invocation
    removes it, calls the service and, when the first attempt is answered
    and the write works, returns the new answer with its token counts and
    leaves it in the file under the time of the write. *)
Theorem expired_entry_is_refreshed (self : BaseAgent) (c : Cache)
    (prompt context : string) (max_retries : option Z)
    (kwargs : list (string * json)) (w : world) (t : Z) (old : option json)
    (text : string) (i o : Z) :
  let key := Cache._get_cache_key E [] (BaseAgent.key_parts self prompt context) in
  BaseAgent.caching cfg self true = Some c ->
  files w !! key = Some (Entry (StampAt t) old) ->
  Cache.ttl c < clock E (clock_reads w) - t ->
  0 < BaseAgent.resolve_max_retries cfg max_retries ->
  api E (api_calls w)
    (BaseAgent.api_request self (BaseAgent._build_prompt self prompt context) kwargs)
    = ApiMessage text i o ->
  disk E (disk_writes w) = WriteOk ->
  exists w',
    BaseAgent.invoke E cfg self prompt context true max_retries kwargs w =
      (Ok (JStr text, i, o), w')
    /\ api_calls w' = S (api_calls w)
    /\ files w' !! key =
         Some (Entry (StampAt (clock E (S (clock_reads w))))
                 (Some (JDict [("text", JStr text); ("input_tokens", JInt i);
                               ("output_tokens", JInt o)]))).
Proof.
  intros key Hc Hf Hage Hmax Hapi Hdisk.
  pose proof (get_expired E c old [] (BaseAgent.key_parts self prompt context) w t
                Hf Hage) as Hget.
  rewrite (invoke_miss E cfg self c prompt context true max_retries kwargs w _ JNull
             Hc Hget eq_refl).
  destruct (call_and_store_answers self c prompt context true max_retries kwargs
              (with_files (delete key (files w)) (after_clock_read w))
              text i o Hc Hmax Hapi Hdisk) as (w' & Hrun & Hn & Hfiles).
  exists w'. split; [exact Hrun|]. split; [exact Hn|].
  rewrite Hfiles. apply lookup_insert_eq.
Qed.

(** X14. The fingerprint of an invocation is made of the name of the agent,
    the prompt and the context, and of nothing else: after an invocation
    through the cache has succeeded, an agent of the same name, whatever
    its role, its model, its token limit and the keywords it passes, is
    served the stored text at no cost for the same prompt and context, as
    long as the file stays as it is and is a live entry for the cache of
    that agent. *)
Theorem same_name_shares_entries (self other : BaseAgent) (c c' : Cache)
    (prompt context : string) (max_retries : option Z)
    (kwargs : list (string * json)) (w w1 : world) (text : json) (i o : Z) :
  BaseAgent.caching cfg self true = Some c ->
  BaseAgent.caching cfg other true = Some c' ->
  name other = name self ->
  BaseAgent.invoke E cfg self prompt context true max_retries kwargs w =
    (Ok (text, i, o), w1) ->
  let key := Cache._get_cache_key E [] (BaseAgent.key_parts self prompt context) in
  exists t d,
    files w1 !! key = Some (Entry (StampAt t) (Some d))
    /\ forall max_retries' kwargs' w2,
         files w2 !! key = files w1 !! key ->
         clock E (clock_reads w2) - t <= Cache.ttl c' ->
         BaseAgent.invoke E cfg other prompt context true max_retries' kwargs' w2 =
           (Ok (text, 0, 0), after_clock_read w2).
Proof.
  intros Hc Hc' Hname Hinv key.
  destruct (invoke_leaves_entry E cfg self c prompt context max_retries kwargs
              w w1 text i o Hc Hinv) as (t & d & Hf & Ht & Htext).
  exists t, d. split; [exact Hf|].
  intros max_retries' kwargs' w2 Hsame Hage.
  assert (Hparts : BaseAgent.key_parts other prompt context =
                   BaseAgent.key_parts self prompt context).
  { unfold BaseAgent.key_parts. rewrite Hname. reflexivity. }
  eapply invoke_hit; eauto.
  rewrite Hparts. eapply get_live; [|exact Hage].
  fold key. rewrite Hsame. exact Hf.
Qed.
End CacheEdges.
